(** * Validated execution and adapter lifecycle of the SSG adapters

    A shallow embedding of three adapters of macrauchenia-ssg:
    - Coleslaw  (Common Lisp, [sbcl]),
    - Franklin  (Julia, [julia]),
    - ScalaTex  (Scala, [mill] / [sbt]),
    followed by the properties of their validators, command runners,
    result records and connection flag.

    JavaScript strings are sequences of UTF-16 code units, numbers are
    restricted to integer values, and the Deno runtime (process spawn and
    current directory) is an interface the adapters are parametrised by. *)

From Stdlib Require Import ZArith NArith List String Ascii Bool Lia.
From stdpp Require Import gmap strings.

Local Open Scope N_scope.

(** ** JavaScript strings *)

(** A JavaScript string is the list of its UTF-16 code units, [list N]. *)

(** A string literal of the source (ASCII only). *)
Definition lit (s : string) : list N :=
  map N_of_ascii (list_ascii_of_string s).

(** The double quote, code unit 34. *)
Definition dq : list N := [34].

Fixpoint starts_with (s p : list N) : bool :=
  match p, s with
  | [], _ => true
  | _ :: _, [] => false
  | a :: p', b :: s' => (a =? b) && starts_with s' p'
  end.

(** [s.includes(sub)] *)
Fixpoint includes (s sub : list N) : bool :=
  starts_with s sub ||
  match s with
  | [] => false
  | _ :: s' => includes s' sub
  end.

(** ** Character classes of the regular expressions *)

Definition in_range (lo hi c : N) : bool := (lo <=? c) && (c <=? hi).
Definition is_lower (c : N) : bool := in_range 97 122 c.
Definition is_upper (c : N) : bool := in_range 65 90 c.
Definition is_digit (c : N) : bool := in_range 48 57 c.
Definition is_alnum (c : N) : bool := is_lower c || is_upper c || is_digit c.

(** Membership of a code unit in an explicit character set. *)
Definition one_of (set : list N) (c : N) : bool := existsb (N.eqb c) set.

(** [/[set]/.test(s)]: some code unit of [s] is in the class. *)
Definition test_any (cls : N -> bool) (s : list N) : bool := existsb cls s.

(** [/^[set]+$/.test(s)]: [s] is not empty and all of it is in the class. *)
Definition test_all1 (cls : N -> bool) (s : list N) : bool :=
  match s with
  | [] => false
  | _ => forallb cls s
  end.

(** [[a-zA-Z0-9._\-/ ]] *)
Definition safe_char (c : N) : bool :=
  is_alnum c || one_of (lit "._-/ ") c.

(** [[a-zA-Z0-9._\-:]] *)
Definition host_char (c : N) : bool :=
  is_alnum c || one_of (lit "._-:") c.

(** [/^[a-zA-Z_][a-zA-Z0-9_]*$/.test(s)] *)
Definition test_identifier (s : list N) : bool :=
  match s with
  | [] => false
  | c :: s' =>
      (is_lower c || is_upper c || (c =? 95)) &&
      forallb (fun d => is_alnum d || (d =? 95)) s'
  end.

(** ** JavaScript values *)

(** The values of a parameter object that are modelled: undefined, null,
    booleans, integer-valued Numbers, strings and plain objects without own
    methods ([VObj]). [VNum n] is the Number [n]; its string form is the
    plain decimal numeral only when [|n| < 10^21] ([plain_number] below).
    Arrays, Numbers with a fraction and NaN are not modelled. *)
Inductive value :=
| VUndefined
| VNull
| VBool (b : bool)
| VNum (n : Z)
| VStr (s : list N)
| VObj.

(** ToBoolean: what [!v], [v ? a : b] and [v || w] look at. *)
Definition truthy (v : value) : bool :=
  match v with
  | VUndefined | VNull => false
  | VBool b => b
  | VNum n => negb (n =? 0)%Z
  | VStr s => match s with [] => false | _ => true end
  | VObj => true
  end.

Definition is_string (v : value) : bool :=
  match v with VStr _ => true | _ => false end.

(** Decimal digits of [n], most significant first, in front of [acc]. *)
Fixpoint digits_aux (fuel : nat) (n : N) (acc : list N) : list N :=
  match fuel with
  | O => acc
  | S fuel' =>
      let acc' := (48 + n mod 10) :: acc in
      if n / 10 =? 0 then acc' else digits_aux fuel' (n / 10) acc'
  end.

Definition digits (n : N) : list N :=
  digits_aux (S (N.to_nat (N.size n))) n [].


(** Number.prototype.toString for an integer-valued number [n] with
    [plain_number n]. *)
Definition num_to_string (n : Z) : list N :=
  match n with
  | Zneg p => 45 :: digits (Npos p)
  | _ => digits (Z.to_N n)
  end.

(** ToString *)
Definition to_string (v : value) : list N :=
  match v with
  | VUndefined => lit "undefined"
  | VNull => lit "null"
  | VBool true => lit "true"
  | VBool false => lit "false"
  | VNum n => num_to_string n
  | VStr s => s
  | VObj => lit "[object Object]"
  end.

(** ** parseInt(v, 10) *)

(** StrWhiteSpaceChar: WhiteSpace and LineTerminator code units. *)
Definition is_js_space (c : N) : bool :=
  one_of [9; 10; 11; 12; 13; 32; 160; 5760; 8232; 8233; 8239; 8287; 12288; 65279] c
  || in_range 8192 8202 c.

Fixpoint trim_start (s : list N) : list N :=
  match s with
  | c :: s' => if is_js_space c then trim_start s' else s
  | [] => []
  end.

(** The value of the longest prefix of decimal digits, continuing from
    [acc]; [seen] tells whether a digit was consumed. *)
Fixpoint parse_digits (s : list N) (seen : bool) (acc : N) : option N :=
  match s with
  | c :: s' =>
      if is_digit c then parse_digits s' true (10 * acc + (c - 48))
      else if seen then Some acc else None
  | [] => if seen then Some acc else None
  end.

(** [parseInt(v, 10)]; [None] is NaN. The result is the mathematical
    integer: the engine rounds it to a double, which neither changes a value
    of at most 65535 nor moves a larger one below it. *)
Definition parseInt (v : value) : option Z :=
  match trim_start (to_string v) with
  | c :: s =>
      if c =? 45 then
        option_map (fun n => (- Z.of_N n)%Z) (parse_digits s false 0)
      else if c =? 43 then option_map Z.of_N (parse_digits s false 0)
      else option_map Z.of_N (parse_digits (c :: s) false 0)
  | [] => None
  end.

(** ** Exceptions *)

(** A thrown Error object; the adapters only ever read its [message]. *)
Record exn := Error { message : list N }.

(** A synchronous computation that returns or throws. *)
Inductive result (A : Type) :=
| Ok (a : A)
| Throw (e : exn).
Arguments Ok {A} a.
Arguments Throw {A} e.

Definition rbind {A B} (r : result A) (k : A -> result B) : result B :=
  match r with
  | Ok a => k a
  | Throw e => Throw e
  end.

Notation "'let!' x ':=' r 'in' k" := (rbind r (fun x => k))
  (at level 10, x name, r at level 100, k at level 200).

(** [v.includes(sub)] on a parameter value: only strings have the method
    among the modelled values; calling it on the others is a TypeError
    (message as V8 words it for the variable [what]). *)
Definition method_includes (what : string) (v : value) (sub : list N)
  : result bool :=
  match v with
  | VStr s => Ok (includes s sub)
  | _ => Throw (Error (lit what ++ lit ".includes is not a function"))
  end.

(** ** The Deno runtime *)

(** [new Deno.Command(exe, { args, cwd, stdout: piped, stderr: piped })].
    [cwd = None] when the option is not given. No other option (no abort
    signal, no timer) is ever passed by the adapters. *)
Record CommandRequest := {
  exe : list N;
  args : list (list N);
  cwd : option (list N)
}.

(** What [await cmd.output()] resolves to, with the captured bytes already
    decoded by [TextDecoder]. *)
Record CommandOutput := {
  out_success : bool;
  out_code : Z;
  out_stdout : list N;
  out_stderr : list N
}.

(** The fate of a spawned command: it exits, the spawn is rejected (binary
    missing, permission denied), or the process never exits. *)
Inductive spawn_outcome :=
| Exited (o : CommandOutput)
| SpawnFails (e : exn)
| NeverExits.

(** The part of Deno the adapters call. *)
Class Runtime (World : Type) := {
  command_output : CommandRequest -> World -> spawn_outcome * World;
  deno_cwd : World -> result (list N)
}.

(** ** Asynchronous computations over the adapter's state *)

(** The module state of one adapter: the outside world, the module
    variable [connected], and the log of every command handed to the
    runtime. *)
Record state (World : Type) := {
  world : World;
  connected : bool;
  spawned : list CommandRequest
}.
Arguments world {World} s.
Arguments connected {World} s.
Arguments spawned {World} s.

(** An awaited promise resolves, rejects, or stays pending for ever. *)
Inductive outcome (A : Type) :=
| Returns (a : A)
| Throws (e : exn)
| Pending.
Arguments Returns {A} a.
Arguments Throws {A} e.
Arguments Pending {A}.

Definition M (World A : Type) : Type := state World -> outcome A * state World.

Section Monad.
Context {World : Type} `{Runtime World}.

Definition ret {A} (a : A) : M World A := fun st => (Returns a, st).

Definition bind {A B} (m : M World A) (k : A -> M World B) : M World B :=
  fun st =>
    match m st with
    | (Returns a, st') => k a st'
    | (Throws e, st') => (Throws e, st')
    | (Pending, st') => (Pending, st')
    end.

Definition lift {A} (r : result A) : M World A :=
  fun st =>
    match r with
    | Ok a => (Returns a, st)
    | Throw e => (Throws e, st)
    end.

(** [try { m } catch (e) { h e }] *)
Definition try_catch {A} (m : M World A) (h : exn -> M World A) : M World A :=
  fun st =>
    match m st with
    | (Throws e, st') => h e st'
    | r => r
    end.

(** [connected = b] *)
Definition set_connected (b : bool) : M World unit :=
  fun st =>
    (Returns tt, {| world := world st; connected := b; spawned := spawned st |}).

Definition get_connected : M World bool :=
  fun st => (Returns (connected st), st).

(** [await new Deno.Command(...).output()] *)
Definition output (req : CommandRequest) : M World CommandOutput :=
  fun st =>
    let (r, w) := command_output req (world st) in
    let st' := {| world := w; connected := connected st;
                  spawned := spawned st ++ [req] |} in
    match r with
    | Exited o => (Returns o, st')
    | SpawnFails e => (Throws e, st')
    | NeverExits => (Pending, st')
    end.

(** [Deno.cwd()] *)
Definition get_cwd : M World (list N) :=
  fun st => lift (deno_cwd (world st)) st.

(** [cwd || Deno.cwd()] for a [cwd] that is null or a string. *)
Definition cwd_or_current (cwd : option (list N)) : M World (list N) :=
  match cwd with
  | Some (c :: s) => ret (c :: s)
  | _ => get_cwd
  end.
End Monad.

Notation "'await' x ':=' m 'in' k" := (bind m (fun x => k))
  (at level 10, x name, m at level 100, k at level 200).

(** ** Results and tools *)

(** The object a tool operation returns. [code = None] when the object
    literal has no [code] property. *)
Record Result := {
  success : bool;
  stdout : list N;
  stderr : list N;
  code : option Z
}.

(** [{ success: output.success, stdout: ..., stderr: ..., code: output.code }] *)
Definition result_of_output (o : CommandOutput) : Result :=
  {| success := out_success o; stdout := out_stdout o;
     stderr := out_stderr o; code := Some (out_code o) |}.

(** [{ success: false, stdout: <empty>, stderr: e.message, code: 1 }] *)
Definition failure (e : exn) : Result :=
  {| success := false; stdout := []; stderr := message e; code := Some 1%Z |}.

(** The parameter object handed to [execute]; a missing property reads as
    [undefined] when it is destructured. *)
Definition param (params : gmap string value) (k : string) : value :=
  default VUndefined (params !! k).

Inductive schema_type := TString | TNumber | TBoolean.

Record Tool (World : Type) := {
  name : string;
  properties : list (string * schema_type);
  required : list string;
  execute : gmap string value -> M World Result
}.
Arguments name {World} t.
Arguments properties {World} t.
Arguments required {World} t.
Arguments execute {World} t.

(** [parts.join(sep)] *)
Fixpoint join (sep : list N) (parts : list (list N)) : list N :=
  match parts with
  | [] => []
  | [p] => p
  | p :: rest => p ++ sep ++ join sep rest
  end.

(** ** Coleslaw adapter (Common Lisp) *)

Module Coleslaw.

Definition sblPath : list N := lit "sbcl".

(** The rejected class of the first regular expression: the two
    parentheses, double quote, backtick, quote, backslash, semicolon,
    hash and vertical bar. *)
Definition lisp_special (c : N) : bool := one_of (lit "()`'\;#|" ++ dq) c.

Definition sanitizeLispString (str : value) : result (list N) :=
  match str with
  | VStr s =>
      if test_any lisp_special s then
        Throw (Error (lit "Invalid characters in input: Lisp special characters not allowed"))
      else if negb (test_all1 safe_char s) then
        Throw (Error (lit "Invalid characters in input: only alphanumeric, dots, dashes, underscores, slashes, and spaces allowed"))
      else Ok s
  | _ => Ok []
  end.

Definition validatePath (path : value) : result (list N) :=
  if negb (truthy path) then Ok (lit ".")
  else
    let! sanitized := sanitizeLispString path in
    if includes sanitized (lit "..") then
      Throw (Error (lit "Path traversal not allowed"))
    else Ok sanitized.

Definition validatePort (port : value) : result Z :=
  match parseInt port with
  | None => Throw (Error (lit "Invalid port number: must be between 1 and 65535"))
  | Some p =>
      if (p <? 1)%Z || (p >? 65535)%Z then
        Throw (Error (lit "Invalid port number: must be between 1 and 65535"))
      else Ok p
  end.

Section WithRuntime.
Context {World : Type} `{Runtime World}.

Definition runCommand (a : list (list N)) (dir : option (list N))
  : M World Result :=
  await d := cwd_or_current dir in
  await o := output {| exe := sblPath; args := lit "--script" :: a;
                       cwd := Some d |} in
  ret (result_of_output o).

Definition runColeslaw (lispExpr : list N) (dir : option (list N))
  : M World Result :=
  await d := cwd_or_current dir in
  await o := output {| exe := sblPath;
                       args := [lit "--eval"; lit "(ql:quickload :coleslaw)";
                                lit "--eval"; lispExpr; lit "--quit"];
                       cwd := Some d |} in
  ret (result_of_output o).

Definition connect : M World bool :=
  try_catch
    (await o := output {| exe := sblPath; args := [lit "--version"];
                          cwd := None |} in
     await _ := set_connected (out_success o) in
     get_connected)
    (fun _ => await _ := set_connected false in ret false).

Definition disconnect : M World unit := set_connected false.

Definition isConnected (st : state World) : bool := connected st.

Definition coleslaw_init (params : gmap string value) : M World Result :=
  try_catch
    (await safePath := lift (validatePath (param params "path")) in
     runColeslaw (lit "(coleslaw:setup " ++ dq ++ safePath ++ dq ++ lit ")")
                 (Some safePath))
    (fun e => ret (failure e)).

Definition coleslaw_build (params : gmap string value) : M World Result :=
  try_catch
    (await safePath := lift (validatePath (param params "path")) in
     runColeslaw (lit "(coleslaw:main " ++ dq ++ safePath ++ dq ++ lit ")")
                 (Some safePath))
    (fun e => ret (failure e)).

Definition coleslaw_preview (params : gmap string value) : M World Result :=
  try_catch
    (await safePath := lift (validatePath (param params "path")) in
     let port := param params "port" in
     await safePort :=
       lift (validatePort (if truthy port then port else VNum 8080)) in
     runColeslaw (lit "(coleslaw:preview :port " ++ num_to_string safePort
                    ++ lit ")")
                 (Some safePath))
    (fun e => ret (failure e)).

Definition coleslaw_new_post (params : gmap string value) : M World Result :=
  try_catch
    (await safePath := lift (validatePath (param params "path")) in
     await safeTitle := lift (sanitizeLispString (param params "title")) in
     runColeslaw (lit "(coleslaw:new-post " ++ dq ++ safeTitle ++ dq ++ lit ")")
                 (Some safePath))
    (fun e => ret (failure e)).

(** No [try], and the returned object has no [code] property. *)
Definition coleslaw_version (_ : gmap string value) : M World Result :=
  await o := output {| exe := sblPath; args := [lit "--version"];
                       cwd := None |} in
  ret {| success := out_success o; stdout := out_stdout o;
         stderr := out_stderr o; code := None |}.

Definition tools : list (Tool World) :=
  [ {| name := "coleslaw_init";
       properties := [("path", TString)];
       required := [];
       execute := coleslaw_init |};
    {| name := "coleslaw_build";
       properties := [("path", TString)];
       required := [];
       execute := coleslaw_build |};
    {| name := "coleslaw_preview";
       properties := [("path", TString); ("port", TNumber)];
       required := [];
       execute := coleslaw_preview |};
    {| name := "coleslaw_new_post";
       properties := [("path", TString); ("title", TString)];
       required := ["title"];
       execute := coleslaw_new_post |};
    {| name := "coleslaw_version";
       properties := [];
       required := [];
       execute := coleslaw_version |} ]%string.
End WithRuntime.

End Coleslaw.

(** ** Franklin adapter (Julia) *)

Module Franklin.

Definition juliaPath : list N := lit "julia".

(** The rejected class of the first regular expression: semicolon,
    backtick, dollar, the two parentheses, backslash, double quote, line
    feed and carriage return. *)
Definition julia_special (c : N) : bool :=
  one_of (lit ";`$()\" ++ dq ++ [10; 13]) c.

Definition sanitizeJuliaString (str : value) : result (list N) :=
  match str with
  | VStr s =>
      if test_any julia_special s then
        Throw (Error (lit "Invalid characters in input: Julia special characters not allowed"))
      else if negb (test_all1 safe_char s) then
        Throw (Error (lit "Invalid characters in input: only alphanumeric, dots, dashes, underscores, slashes, and spaces allowed"))
      else Ok s
  | _ => Ok []
  end.

Definition sanitizeHost (str : value) : result (list N) :=
  match str with
  | VStr s =>
      if negb (test_all1 host_char s) then
        Throw (Error (lit "Invalid host format"))
      else Ok s
  | _ => Ok []
  end.

Definition validatePath (path : value) : result (list N) :=
  if negb (truthy path) then Ok (lit ".")
  else
    let! sanitized := sanitizeJuliaString path in
    if includes sanitized (lit "..") then
      Throw (Error (lit "Path traversal not allowed"))
    else Ok sanitized.

Definition validatePort (port : value) : result Z :=
  match parseInt port with
  | None => Throw (Error (lit "Invalid port number: must be between 1 and 65535"))
  | Some p =>
      if (p <? 1)%Z || (p >? 65535)%Z then
        Throw (Error (lit "Invalid port number: must be between 1 and 65535"))
      else Ok p
  end.

(** [v !== false] *)
Definition not_false (v : value) : bool :=
  match v with
  | VBool false => false
  | _ => true
  end.

(** [args.length ? args.join(", ") : <empty string>] *)
Definition argsStr (a : list (list N)) : list N :=
  match a with
  | [] => []
  | _ => join (lit ", ") a
  end.

Section WithRuntime.
Context {World : Type} `{Runtime World}.

Definition runJulia (src : list N) (dir : option (list N))
  : M World Result :=
  await d := cwd_or_current dir in
  await o := output {| exe := juliaPath; args := [lit "-e"; src];
                       cwd := Some d |} in
  ret (result_of_output o).

Definition connect : M World bool :=
  try_catch
    (await o := output {| exe := juliaPath; args := [lit "--version"];
                          cwd := None |} in
     await _ := set_connected (out_success o) in
     get_connected)
    (fun _ => await _ := set_connected false in ret false).

Definition disconnect : M World unit := set_connected false.

Definition isConnected (st : state World) : bool := connected st.

Definition franklin_newsite (params : gmap string value) : M World Result :=
  try_catch
    (await safePath := lift (validatePath (param params "path")) in
     let template := param params "template" in
     await tmpl :=
       lift (if truthy template then
               let! t := sanitizeJuliaString template in
               Ok (lit ", template=" ++ dq ++ t ++ dq)
             else Ok []) in
     runJulia (lit "using Franklin; newsite(" ++ dq ++ safePath ++ dq
                 ++ tmpl ++ lit ")")
              None)
    (fun e => ret (failure e)).

Definition franklin_serve (params : gmap string value) : M World Result :=
  try_catch
    (await safePath := lift (validatePath (param params "path")) in
     let port := param params "port" in
     let host := param params "host" in
     await a1 :=
       lift (if truthy port then
               let! p := validatePort port in
               Ok [lit "port=" ++ num_to_string p]
             else Ok []) in
     await a2 :=
       lift (if truthy host then
               let! h := sanitizeHost host in
               Ok (a1 ++ [lit "host=" ++ dq ++ h ++ dq])
             else Ok a1) in
     runJulia (lit "using Franklin; serve(" ++ argsStr a2 ++ lit ")")
              (Some safePath))
    (fun e => ret (failure e)).

Definition franklin_optimize (params : gmap string value) : M World Result :=
  try_catch
    (await safePath := lift (validatePath (param params "path")) in
     let a1 := if not_false (param params "minify")
               then [lit "minify=true"] else [] in
     let a2 := if not_false (param params "prerender")
               then a1 ++ [lit "prerender=true"] else a1 in
     runJulia (lit "using Franklin; optimize(" ++ argsStr a2 ++ lit ")")
              (Some safePath))
    (fun e => ret (failure e)).

Definition franklin_publish (params : gmap string value) : M World Result :=
  try_catch
    (await safePath := lift (validatePath (param params "path")) in
     runJulia (lit "using Franklin; publish()") (Some safePath))
    (fun e => ret (failure e)).

(** No [try], and the returned object has no [code] property. *)
Definition franklin_version (_ : gmap string value) : M World Result :=
  await o := output {| exe := juliaPath; args := [lit "--version"];
                       cwd := None |} in
  ret {| success := out_success o; stdout := out_stdout o;
         stderr := out_stderr o; code := None |}.

Definition tools : list (Tool World) :=
  [ {| name := "franklin_newsite";
       properties := [("path", TString); ("template", TString)];
       required := [];
       execute := franklin_newsite |};
    {| name := "franklin_serve";
       properties := [("path", TString); ("port", TNumber); ("host", TString)];
       required := [];
       execute := franklin_serve |};
    {| name := "franklin_optimize";
       properties := [("path", TString); ("minify", TBoolean);
                      ("prerender", TBoolean)];
       required := [];
       execute := franklin_optimize |};
    {| name := "franklin_publish";
       properties := [("path", TString)];
       required := [];
       execute := franklin_publish |};
    {| name := "franklin_version";
       properties := [];
       required := [];
       execute := franklin_version |} ]%string.
End WithRuntime.

End Franklin.

(** ** ScalaTex adapter (Scala) *)

Module ScalaTex.

Definition millPath : list N := lit "mill".

(** Returns the default or [module] itself, which is a string whenever
    the three [includes] calls went through. *)
Definition validateModuleName (module : value) : result (list N) :=
  if negb (truthy module) then Ok (lit "docs")
  else if negb (test_identifier (to_string module)) then
    Throw (Error (lit "Invalid module name: must be a valid identifier (alphanumeric and underscores only)"))
  else
    let! dots := method_includes "module" module (lit "..") in
    let! slash := if dots then Ok true
                  else method_includes "module" module (lit "/") in
    let! back := if slash then Ok true
                 else method_includes "module" module (lit "\") in
    if back then
      Throw (Error (lit "Invalid module name: path traversal not allowed"))
    else
      Ok (to_string module).

(** The rejected class: semicolon, ampersand, vertical bar, backtick and
    dollar. *)
Definition shell_special (c : N) : bool := one_of (lit ";&|`$") c.

(** Returns [null] ([None]) for a missing path, else [path] itself, which
    is a string whenever the [includes] call went through. *)
Definition validatePath (path : value) : result (option (list N)) :=
  if negb (truthy path) then Ok None
  else
    let! dots := method_includes "path" path (lit "..") in
    if dots then Throw (Error (lit "Path traversal not allowed"))
    else if test_any shell_special (to_string path) then
      Throw (Error (lit "Invalid characters in path"))
    else Ok (Some (to_string path)).

Section WithRuntime.
Context {World : Type} `{Runtime World}.

Definition runCommand (a : list (list N)) (dir : option (list N))
  : M World Result :=
  await d := cwd_or_current dir in
  await o := output {| exe := millPath; args := a; cwd := Some d |} in
  ret (result_of_output o).

Definition runSbt (a : list (list N)) (dir : option (list N))
  : M World Result :=
  await d := cwd_or_current dir in
  await o := output {| exe := lit "sbt"; args := a; cwd := Some d |} in
  ret (result_of_output o).

Definition connect : M World bool :=
  try_catch
    (await r := runCommand [lit "--version"] None in
     await _ := set_connected (success r) in
     await c := get_connected in
     await _ :=
       (if negb c then
          await sbtResult := runSbt [lit "--version"] None in
          set_connected (success sbtResult)
        else ret tt) in
     get_connected)
    (fun _ => await _ := set_connected false in ret false).

Definition disconnect : M World unit := set_connected false.

Definition isConnected (st : state World) : bool := connected st.

Definition scalatex_compile (params : gmap string value) : M World Result :=
  try_catch
    (await safePath := lift (validatePath (param params "path")) in
     await safeMod := lift (validateModuleName (param params "module")) in
     runCommand [safeMod ++ lit ".compile"] safePath)
    (fun e => ret (failure e)).

Definition scalatex_run (params : gmap string value) : M World Result :=
  try_catch
    (await safePath := lift (validatePath (param params "path")) in
     await safeMod := lift (validateModuleName (param params "module")) in
     runCommand [safeMod ++ lit ".run"] safePath)
    (fun e => ret (failure e)).

Definition scalatex_watch (params : gmap string value) : M World Result :=
  try_catch
    (await safePath := lift (validatePath (param params "path")) in
     await safeMod := lift (validateModuleName (param params "module")) in
     runCommand [lit "--watch"; safeMod ++ lit ".compile"] safePath)
    (fun e => ret (failure e)).

Definition scalatex_clean (params : gmap string value) : M World Result :=
  try_catch
    (await safePath := lift (validatePath (param params "path")) in
     runCommand [lit "clean"] safePath)
    (fun e => ret (failure e)).

(** No [try]. *)
Definition scalatex_version (_ : gmap string value) : M World Result :=
  runCommand [lit "--version"] None.

Definition tools : list (Tool World) :=
  [ {| name := "scalatex_compile";
       properties := [("path", TString); ("module", TString)];
       required := [];
       execute := scalatex_compile |};
    {| name := "scalatex_run";
       properties := [("path", TString); ("module", TString)];
       required := [];
       execute := scalatex_run |};
    {| name := "scalatex_watch";
       properties := [("path", TString); ("module", TString)];
       required := [];
       execute := scalatex_watch |};
    {| name := "scalatex_clean";
       properties := [("path", TString)];
       required := [];
       execute := scalatex_clean |};
    {| name := "scalatex_version";
       properties := [];
       required := [];
       execute := scalatex_version |} ]%string.
End WithRuntime.

End ScalaTex.

(** ** The adapter at module load, and concrete runtimes *)

(** [let connected = false], nothing spawned yet. *)
Definition initial {World : Type} (w : World) : state World :=
  {| world := w; connected := false; spawned := [] |}.

(** The tools of the three adapters. *)
Definition all_tools {World : Type} `{Runtime World} : list (Tool World) :=
  Coleslaw.tools ++ Franklin.tools ++ ScalaTex.tools.

(** The state once [req] has been handed to the runtime, which moved the
    world to [w]. *)
Definition after_spawn {World : Type} (st : state World)
  (req : CommandRequest) (w : World) : state World :=
  {| world := w; connected := connected st; spawned := spawned st ++ [req] |}.

(** [m] makes the request [req] and then waits for the process, however
    long it takes: it stays pending while the process does not exit, and
    when the process exits it returns the output of the process. *)
Definition awaits_exit {World : Type} `{Runtime World}
  (m : M World Result) (req : CommandRequest) (st : state World) : Prop :=
  (forall w, command_output req (world st) = (NeverExits, w) ->
     m st = (Pending, after_spawn st req w)) /\
  (forall o w, command_output req (world st) = (Exited o, w) ->
     m st = (Returns (result_of_output o), after_spawn st req w)).

(** Some validator of the adapters, applied to [v], throws [e]. *)
Definition validator_throws (v : value) (e : exn) : Prop :=
  Coleslaw.sanitizeLispString v = Throw e \/
  Coleslaw.validatePath v = Throw e \/
  Coleslaw.validatePort v = Throw e \/
  Franklin.sanitizeJuliaString v = Throw e \/
  Franklin.sanitizeHost v = Throw e \/
  Franklin.validatePath v = Throw e \/
  Franklin.validatePort v = Throw e \/
  ScalaTex.validateModuleName v = Throw e \/
  ScalaTex.validatePath v = Throw e.

(** In the world [w] the runtime throws [e]: [Deno.cwd()] does, or the
    spawn of some command is rejected with it. *)
Definition runtime_throws {World : Type} `{Runtime World}
  (w : World) (e : exn) : Prop :=
  deno_cwd w = Throw e \/
  exists req w', command_output req w = (SpawnFails e, w').

(** In the world [w] some command is spawned and exits with output [o]. *)
Definition process_exited {World : Type} `{Runtime World}
  (w : World) (o : CommandOutput) : Prop :=
  exists req w', command_output req w = (Exited o, w').

(** Between [st] and [st'] the flag [connected] was not touched and at
    most one command was handed to the runtime, for the executable [bin]. *)
Definition spawns_at_most_once {World : Type} (bin : list N)
  (st st' : state World) : Prop :=
  connected st' = connected st /\
  (spawned st' = spawned st \/
   exists req, spawned st' = spawned st ++ [req] /\ exe req = bin).

(** What a caller passes to [execute]: undefined, null, or a parameter
    object (a primitive value passed instead of an object has none of the
    declared properties and behaves as the empty object). *)
Inductive argument :=
| ArgUndefined
| ArgNull
| ArgObject (params : gmap string value).

(** Binding the parameter pattern of a tool to the argument: destructuring
    undefined or null is a TypeError, worded by V8 with the first property
    of the pattern. *)
Definition destructure (first : string) (arg : argument)
  : result (gmap string value) :=
  match arg with
  | ArgObject params => Ok params
  | ArgUndefined =>
      Throw (Error (lit "Cannot destructure property '" ++ lit first
                      ++ lit "' of 'undefined' as it is undefined."))
  | ArgNull =>
      Throw (Error (lit "Cannot destructure property '" ++ lit first
                      ++ lit "' of 'object null' as it is null."))
  end.

(** The call [tool.execute(arg)]. A tool that declares properties is an
    async function whose parameter is a pattern of these properties, in
    the order of the schema, bound before the body (and so before its
    [try]) is entered; a tool that declares none takes no parameter. *)
Definition call {World : Type} `{Runtime World} (t : Tool World)
  (arg : argument) : M World Result :=
  match properties t with
  | [] => execute t ∅
  | (first, _) :: _ =>
      await params := lift (destructure first arg) in execute t params
  end.

(** The lifecycle states the specification names. *)
Inductive SpecLifecycle :=
| SpecDisconnected
| SpecConnecting
| SpecConnected
| SpecError.

Module Worlds.

Definition always (r : spawn_outcome) : Runtime unit :=
  {| command_output := fun _ w => (r, w);
     deno_cwd := fun _ => Ok (lit "/srv/site") |}.

(** Every binary is installed and exits with status 0. *)
Definition all_good : Runtime unit :=
  always (Exited {| out_success := true; out_code := 0;
                    out_stdout := lit "done"; out_stderr := [] |}).

(** No binary is installed: every spawn is rejected. *)
Definition not_found : exn :=
  Error (lit "Failed to spawn: No such file or directory (os error 2)").

Definition missing_binary : Runtime unit := always (SpawnFails not_found).

(** Every process exits with status 1 and writes nothing. *)
Definition silent_failure : Runtime unit :=
  always (Exited {| out_success := false; out_code := 1;
                    out_stdout := []; out_stderr := [] |}).

(** Every process runs for ever. *)
Definition hanging : Runtime unit := always NeverExits.

End Worlds.

(** What follows a numeral does not continue it. *)
Definition no_leading_digit (rest : list N) : bool :=
  match rest with
  | [] => true
  | c :: _ => negb (is_digit c)
  end.

(** The error both [validatePort] functions throw. *)
Definition port_error : exn :=
  Error (lit "Invalid port number: must be between 1 and 65535").

(** * Properties *)

(** ** Strings and character classes *)

Lemma includes_nonempty (s sub : list N) :
  sub <> [] -> includes s sub = true -> s <> [].
Proof.
  intros Hsub Hinc ->. destruct sub as [|c sub]; [congruence|].
  simpl in Hinc. discriminate.
Qed.

Lemma truthy_includes_dotdot (s : list N) :
  includes s (lit "..") = true -> truthy (VStr s) = true.
Proof.
  intros Hinc. destruct s as [|c s]; [|reflexivity].
  apply includes_nonempty in Hinc; [congruence | discriminate].
Qed.

Lemma truthy_test_any (cls : N -> bool) (s : list N) :
  test_any cls s = true -> truthy (VStr s) = true.
Proof. destruct s; [discriminate | reflexivity]. Qed.

(** ** Path validation *)

(** C4. A path string that contains two consecutive dots is rejected by the
    [validatePath] of each of the three adapters, whatever else it holds. *)
Theorem validatePath_rejects_traversal (s : list N) :
  includes s (lit "..") = true ->
  (exists e, Coleslaw.validatePath (VStr s) = Throw e) /\
  (exists e, Franklin.validatePath (VStr s) = Throw e) /\
  ScalaTex.validatePath (VStr s) = Throw (Error (lit "Path traversal not allowed")).
Proof.
  intros Hinc. pose proof (truthy_includes_dotdot s Hinc) as Ht.
  repeat split.
  - unfold Coleslaw.validatePath, Coleslaw.sanitizeLispString.
    rewrite Ht. simpl negb. cbv iota.
    destruct (test_any Coleslaw.lisp_special s); [eexists; reflexivity|].
    destruct (negb (test_all1 safe_char s)); [eexists; reflexivity|].
    unfold rbind. rewrite Hinc. eexists; reflexivity.
  - unfold Franklin.validatePath, Franklin.sanitizeJuliaString.
    rewrite Ht. simpl negb. cbv iota.
    destruct (test_any Franklin.julia_special s); [eexists; reflexivity|].
    destruct (negb (test_all1 safe_char s)); [eexists; reflexivity|].
    unfold rbind. rewrite Hinc. eexists; reflexivity.
  - unfold ScalaTex.validatePath, method_includes.
    rewrite Ht. simpl negb. cbv iota. unfold rbind. rewrite Hinc. reflexivity.
Qed.

Lemma validatePath_rejects_traversal_witness :
  includes (lit "../../etc") (lit "..") = true /\
  ((exists e, Coleslaw.validatePath (VStr (lit "../../etc")) = Throw e) /\
   (exists e, Franklin.validatePath (VStr (lit "../../etc")) = Throw e) /\
   ScalaTex.validatePath (VStr (lit "../../etc"))
   = Throw (Error (lit "Path traversal not allowed"))).
Proof.
  split; [reflexivity|].
  apply (validatePath_rejects_traversal (lit "../../etc")). reflexivity.
Defined.

(** C8, as the code has it. For a missing path (undefined or null, hence
    also a property absent from the parameter object) the [validatePath] of
    Coleslaw and of Franklin returns the one-dot string, while the one of
    ScalaTex returns null. *)
Theorem validatePath_missing (v : value) :
  v = VUndefined \/ v = VNull ->
  Coleslaw.validatePath v = Ok (lit ".") /\
  Franklin.validatePath v = Ok (lit ".") /\
  ScalaTex.validatePath v = Ok None.
Proof. intros [-> | ->]; repeat split. Qed.

Lemma validatePath_missing_witness :
  param (∅ : gmap string value) "path" = VUndefined /\
  Coleslaw.validatePath (param (∅ : gmap string value) "path") = Ok (lit ".") /\
  Franklin.validatePath (param (∅ : gmap string value) "path") = Ok (lit ".") /\
  ScalaTex.validatePath (param (∅ : gmap string value) "path") = Ok None.
Proof.
  split; [reflexivity|].
  apply (validatePath_missing (param (∅ : gmap string value) "path")).
  left. reflexivity.
Defined.

(** C8 refuted as stated: the [validatePath] of ScalaTex does not return
    the one-dot string for an undefined path; it returns null. *)
Lemma scalatex_missing_path_is_null :
  ScalaTex.validatePath VUndefined = Ok None /\
  ScalaTex.validatePath VUndefined <> Ok (Some (lit ".")).
Proof. split; [reflexivity | discriminate]. Qed.

(** ** Decimal numerals and parseInt *)

Lemma digit_char (m : N) : m < 10 -> is_digit (48 + m) = true.
Proof.
  intros Hm. unfold is_digit, in_range.
  apply andb_true_intro; split; apply N.leb_le; lia.
Qed.

Lemma digit_not_space (c : N) : is_digit c = true -> is_js_space c = false.
Proof.
  unfold is_digit, in_range. intros Hc.
  apply andb_prop in Hc as [Hlo Hhi].
  apply N.leb_le in Hlo. apply N.leb_le in Hhi.
  unfold is_js_space, one_of, in_range, existsb.
  repeat match goal with
         | |- context [N.eqb c ?k] =>
             replace (N.eqb c k) with false by (symmetry; apply N.eqb_neq; lia)
         end.
  replace (8192 <=? c) with false by (symmetry; apply N.leb_gt; lia).
  reflexivity.
Qed.

Lemma digit_not_sign (c : N) :
  is_digit c = true -> (c =? 45) = false /\ (c =? 43) = false.
Proof.
  unfold is_digit, in_range. intros Hc.
  apply andb_prop in Hc as [Hlo Hhi].
  apply N.leb_le in Hlo. apply N.leb_le in Hhi.
  split; apply N.eqb_neq; lia.
Qed.

Lemma digit_value (n : N) : 10 * (n / 10) + (48 + n mod 10 - 48) = n.
Proof.
  rewrite N.add_comm with (n := 48), N.add_sub.
  symmetry. apply N.div_mod. discriminate.
Qed.

Lemma digits_aux_S (f : nat) (n : N) (acc : list N) :
  digits_aux (S f) n acc
  = if n / 10 =? 0 then (48 + n mod 10) :: acc
    else digits_aux f (n / 10) ((48 + n mod 10) :: acc).
Proof. reflexivity. Qed.

(** Reading back the digits written for [n] gives [n], and reading goes on
    with what follows them. *)
Lemma parse_digits_aux (f : nat) :
  forall (n : N) (acc : list N) (seen : bool),
    n < 2 ^ N.of_nat f ->
    parse_digits (digits_aux (S f) n acc) seen 0 = parse_digits acc true n.
Proof.
  induction f as [|f IH]; intros n acc seen Hn.
  - assert (n = 0) as -> by (simpl in Hn; lia). reflexivity.
  - rewrite digits_aux_S.
    assert (Hd : is_digit (48 + n mod 10) = true)
      by (apply digit_char, N.mod_lt; lia).
    destruct (n / 10 =? 0) eqn:Hq.
    + apply N.eqb_eq in Hq. cbn [parse_digits]. rewrite Hd.
      f_equal. rewrite <- (digit_value n) at 2. rewrite Hq. reflexivity.
    + rewrite (IH (n / 10) _ seen).
      * cbn [parse_digits]. rewrite Hd.
        f_equal. apply digit_value.
      * rewrite Nat2N.inj_succ, N.pow_succ_r' in Hn.
        apply N.Div0.div_lt_upper_bound. lia.
Qed.

Lemma parse_digits_digits (n : N) (rest : list N) (seen : bool) :
  parse_digits (digits_aux (S (N.to_nat (N.size n))) n rest) seen 0
  = parse_digits rest true n.
Proof.
  apply parse_digits_aux. rewrite N2Nat.id. apply N.size_gt.
Qed.

Lemma digits_aux_app (f : nat) :
  forall (n : N) (acc rest : list N),
    digits_aux f n acc ++ rest = digits_aux f n (acc ++ rest).
Proof.
  induction f as [|f IH]; intros n acc rest; [reflexivity|].
  rewrite !digits_aux_S. destruct (n / 10 =? 0); [reflexivity|].
  rewrite IH. reflexivity.
Qed.

Lemma digits_aux_head (f : nat) :
  forall (n : N) (acc : list N),
    exists d tl, digits_aux (S f) n acc = d :: tl /\ is_digit d = true.
Proof.
  induction f as [|f IH]; intros n acc.
  - rewrite digits_aux_S. exists (48 + n mod 10).
    destruct (n / 10 =? 0); eexists; (split; [reflexivity|]);
      apply digit_char, N.mod_lt; lia.
  - rewrite digits_aux_S. destruct (n / 10 =? 0).
    + do 2 eexists. split; [reflexivity|]. apply digit_char, N.mod_lt; lia.
    + apply IH.
Qed.

Lemma parse_digits_stop (rest : list N) (n : N) :
  no_leading_digit rest = true -> parse_digits rest true n = Some n.
Proof.
  destruct rest as [|c rest]; [reflexivity|].
  cbn. intros Hc. apply negb_true_iff in Hc. rewrite Hc. reflexivity.
Qed.

Lemma parse_digits_numeral (n : N) (rest : list N) (seen : bool) :
  no_leading_digit rest = true ->
  parse_digits (digits n ++ rest) seen 0 = Some n.
Proof.
  intros Hrest. unfold digits. rewrite digits_aux_app. cbn [app].
  rewrite parse_digits_digits. apply parse_digits_stop, Hrest.
Qed.

Lemma parseInt_digits (n : N) (rest : list N) :
  no_leading_digit rest = true ->
  parseInt (VStr (digits n ++ rest)) = Some (Z.of_N n).
Proof.
  intros Hrest. unfold parseInt. cbn [to_string].
  pose proof (parse_digits_numeral n rest false Hrest) as Hp.
  unfold digits in *. rewrite digits_aux_app in *. cbn [app] in *.
  destruct (digits_aux_head (N.to_nat (N.size n)) n rest) as (d & tl & Heq & Hd).
  rewrite Heq in *. cbn [trim_start].
  rewrite (digit_not_space d Hd).
  destruct (digit_not_sign d Hd) as [-> ->].
  rewrite Hp. reflexivity.
Qed.

Lemma trim_start_spaces (ws s : list N) :
  forallb is_js_space ws = true -> trim_start (ws ++ s) = trim_start s.
Proof.
  induction ws as [|c ws IH]; [reflexivity|].
  cbn [forallb app trim_start]. intros Hws.
  apply andb_prop in Hws as [-> Hws]. apply IH, Hws.
Qed.

Lemma parseInt_trim (ws s : list N) :
  forallb is_js_space ws = true ->
  parseInt (VStr (ws ++ s)) = parseInt (VStr s).
Proof.
  intros Hws. unfold parseInt. cbn [to_string].
  rewrite (trim_start_spaces ws s Hws). reflexivity.
Qed.

(** [parseInt] reads back the decimal numeral of an integer, whatever
    precedes it as white space and whatever follows it. *)
Lemma parseInt_numeral (n : Z) (ws rest : list N) :
  forallb is_js_space ws = true ->
  no_leading_digit rest = true ->
  parseInt (VStr (ws ++ num_to_string n ++ rest)) = Some n.
Proof.
  intros Hws Hrest. rewrite (parseInt_trim ws _ Hws).
  destruct n as [|p|p]; cbn [num_to_string].
  - rewrite parseInt_digits by assumption. reflexivity.
  - rewrite parseInt_digits by assumption. reflexivity.
  - unfold parseInt. cbn [to_string app trim_start].
    change (is_js_space 45) with false. cbv iota.
    change (45 =? 45) with true. cbv iota.
    rewrite parse_digits_numeral by assumption. reflexivity.
Qed.

Lemma parseInt_number (n : Z) : parseInt (VNum n) = Some n.
Proof.
  pose proof (parseInt_numeral n [] [] eq_refl eq_refl) as Hp.
  cbn [app] in Hp. rewrite app_nil_r in Hp. exact Hp.
Qed.

(** ** Port validation *)

Lemma validatePort_of_parseInt (v : value) (n : Z) :
  parseInt v = Some n ->
  Coleslaw.validatePort v
  = (if (1 <=? n)%Z && (n <=? 65535)%Z then Ok n else Throw port_error) /\
  Franklin.validatePort v
  = (if (1 <=? n)%Z && (n <=? 65535)%Z then Ok n else Throw port_error).
Proof.
  intros Hp. unfold Coleslaw.validatePort, Franklin.validatePort. rewrite Hp.
  destruct (Z.ltb_spec n 1), (Z.gtb_spec n 65535),
    (Z.leb_spec 1 n), (Z.leb_spec n 65535); try lia; split; reflexivity.
Qed.




(** ** Dangerous characters *)

Lemma existsb_forallb_false {A} (P Q : A -> bool) (l : list A) :
  (forall c, P c = true -> Q c = false) ->
  existsb P l = true -> forallb Q l = false.
Proof.
  intros HPQ. induction l as [|c l IH]; [discriminate|].
  cbn. intros Hex. apply orb_prop in Hex as [Hc | Hl].
  - rewrite (HPQ c Hc). reflexivity.
  - rewrite (IH Hl). apply andb_false_r.
Qed.

Lemma test_all1_false (P Q : N -> bool) (s : list N) :
  (forall c, P c = true -> Q c = false) ->
  test_any P s = true -> test_all1 Q s = false.
Proof.
  intros HPQ Hs. destruct s as [|c s]; [reflexivity|].
  apply (existsb_forallb_false P Q); assumption.
Qed.

(** Case analysis of a code unit known to be in an explicit set. *)
Ltac one_of_cases H :=
  unfold one_of in H; cbn in H;
  repeat (apply orb_prop in H as [H | H]);
  try discriminate H; apply N.eqb_eq in H; subst.

Lemma julia_special_not_host (c : N) :
  Franklin.julia_special c = true -> host_char c = false.
Proof. intros Hc. unfold Franklin.julia_special in Hc. one_of_cases Hc; reflexivity. Qed.

Lemma shell_special_not_identifier (c : N) :
  ScalaTex.shell_special c = true ->
  (is_lower c || is_upper c || (c =? 95)) = false /\
  (is_alnum c || (c =? 95)) = false.
Proof.
  intros Hc. unfold ScalaTex.shell_special in Hc.
  one_of_cases Hc; split; reflexivity.
Qed.

Lemma shell_special_test_identifier (s : list N) :
  test_any ScalaTex.shell_special s = true -> test_identifier s = false.
Proof.
  destruct s as [|c s]; [reflexivity|].
  cbn [test_any existsb test_identifier]. intros Hs.
  apply orb_prop in Hs as [Hc | Hs].
  - destruct (shell_special_not_identifier c Hc) as [-> _]. reflexivity.
  - rewrite (existsb_forallb_false ScalaTex.shell_special _ s); [apply andb_false_r| |exact Hs].
    intros d Hd. apply (shell_special_not_identifier d Hd).
Qed.

Lemma sanitizeLispString_special (s : list N) :
  test_any Coleslaw.lisp_special s = true ->
  Coleslaw.sanitizeLispString (VStr s)
  = Throw (Error (lit "Invalid characters in input: Lisp special characters not allowed")).
Proof. intros Hs. unfold Coleslaw.sanitizeLispString. rewrite Hs. reflexivity. Qed.

Lemma sanitizeJuliaString_special (s : list N) :
  test_any Franklin.julia_special s = true ->
  Franklin.sanitizeJuliaString (VStr s)
  = Throw (Error (lit "Invalid characters in input: Julia special characters not allowed")).
Proof. intros Hs. unfold Franklin.sanitizeJuliaString. rewrite Hs. reflexivity. Qed.

Lemma sanitizeHost_special (s : list N) :
  test_any Franklin.julia_special s = true ->
  Franklin.sanitizeHost (VStr s) = Throw (Error (lit "Invalid host format")).
Proof.
  intros Hs. unfold Franklin.sanitizeHost.
  rewrite (test_all1_false _ _ s julia_special_not_host Hs). reflexivity.
Qed.

Lemma coleslaw_validatePath_special (s : list N) :
  test_any Coleslaw.lisp_special s = true ->
  Coleslaw.validatePath (VStr s)
  = Throw (Error (lit "Invalid characters in input: Lisp special characters not allowed")).
Proof.
  intros Hs. unfold Coleslaw.validatePath.
  rewrite (truthy_test_any _ _ Hs), (sanitizeLispString_special _ Hs). reflexivity.
Qed.

Lemma franklin_validatePath_special (s : list N) :
  test_any Franklin.julia_special s = true ->
  Franklin.validatePath (VStr s)
  = Throw (Error (lit "Invalid characters in input: Julia special characters not allowed")).
Proof.
  intros Hs. unfold Franklin.validatePath.
  rewrite (truthy_test_any _ _ Hs), (sanitizeJuliaString_special _ Hs). reflexivity.
Qed.

Lemma scalatex_validatePath_special (s : list N) :
  test_any ScalaTex.shell_special s = true ->
  exists e, ScalaTex.validatePath (VStr s) = Throw e.
Proof.
  intros Hs. unfold ScalaTex.validatePath.
  rewrite (truthy_test_any _ _ Hs). cbn [negb method_includes rbind to_string].
  destruct (includes s (lit "..")); [eexists; reflexivity|].
  rewrite Hs. eexists; reflexivity.
Qed.

Lemma scalatex_validateModuleName_special (s : list N) :
  test_any ScalaTex.shell_special s = true ->
  exists e, ScalaTex.validateModuleName (VStr s) = Throw e.
Proof.
  intros Hs. unfold ScalaTex.validateModuleName.
  rewrite (truthy_test_any _ _ Hs). cbn [negb to_string].
  rewrite (shell_special_test_identifier _ Hs). eexists; reflexivity.
Qed.

(** ** Sequencing, [try] and the spawn log *)

Section MonadFacts.
Context {World : Type} `{Runtime World}.

Lemma try_lift_throw {A B} (e : exn) (k : A -> M World B)
  (h : exn -> M World B) (st : state World) :
  try_catch (bind (lift (Throw e)) k) h st = h e st.
Proof. reflexivity. Qed.

Lemma try_lift_ok {A B} (a : A) (k : A -> M World B)
  (h : exn -> M World B) (st : state World) :
  try_catch (bind (lift (Ok a)) k) h st = try_catch (k a) h st.
Proof. reflexivity. Qed.

Lemma param_lookup (params : gmap string value) (k : string) (v : value) :
  params !! k = Some v -> param params k = v.
Proof. intros Hk. unfold param. rewrite Hk. reflexivity. Qed.

End MonadFacts.

Arguments lit : simpl never.

(** Case analysis of a membership in an explicit list. *)
Ltac in_cases H :=
  cbn [In] in H;
  repeat match type of H with
         | _ \/ _ => destruct H as [H | H]
         | False => destruct H
         end.

(** One step of a validated tool body: the validation at the head of the
    [try] block either throws, which the [catch] turns into a failure
    record, or returns, and the body goes on. *)
Ltac validation_step :=
  cbv zeta; cbn [rbind negb];
  first
    [ rewrite try_lift_throw; eexists; reflexivity
    | rewrite try_lift_ok
    | match goal with
      | |- context [try_catch (bind (lift ?r) _) _ _] =>
          let e := fresh "e" in destruct r as [? | e]
      end ].

Section Injection.
Context {World : Type} `{Runtime World}.

Lemma coleslaw_rejects (t : Tool World) (k : string) (s : list N)
  (params : gmap string value) (st : state World) :
  In t Coleslaw.tools ->
  In (k, TString) (properties t) ->
  params !! k = Some (VStr s) ->
  test_any Coleslaw.lisp_special s = true ->
  exists e, execute t params st = (Returns (failure e), st).
Proof.
  intros Ht Hk Hs Hbad. apply param_lookup in Hs.
  pose proof (coleslaw_validatePath_special s Hbad) as Hpath.
  pose proof (sanitizeLispString_special s Hbad) as Hsan.
  unfold Coleslaw.tools in Ht. in_cases Ht; subst t;
    cbn [properties] in Hk; in_cases Hk;
    try discriminate Hk; injection Hk as <-;
    cbn [execute];
    unfold Coleslaw.coleslaw_init, Coleslaw.coleslaw_build,
      Coleslaw.coleslaw_preview, Coleslaw.coleslaw_new_post;
    rewrite Hs; rewrite ?Hpath, ?Hsan.
  all: repeat validation_step.
Qed.

Lemma franklin_rejects (t : Tool World) (k : string) (s : list N)
  (params : gmap string value) (st : state World) :
  In t Franklin.tools ->
  In (k, TString) (properties t) ->
  params !! k = Some (VStr s) ->
  test_any Franklin.julia_special s = true ->
  exists e, execute t params st = (Returns (failure e), st).
Proof.
  intros Ht Hk Hs Hbad. apply param_lookup in Hs.
  pose proof (franklin_validatePath_special s Hbad) as Hpath.
  pose proof (sanitizeJuliaString_special s Hbad) as Hsan.
  pose proof (sanitizeHost_special s Hbad) as Hhost.
  pose proof (truthy_test_any _ s Hbad) as Htruthy.
  unfold Franklin.tools in Ht. in_cases Ht; subst t;
    cbn [properties] in Hk; in_cases Hk;
    try discriminate Hk; injection Hk as <-;
    cbn [execute];
    unfold Franklin.franklin_newsite, Franklin.franklin_serve,
      Franklin.franklin_optimize, Franklin.franklin_publish;
    rewrite Hs; rewrite ?Htruthy, ?Hpath, ?Hsan, ?Hhost.
  all: repeat validation_step.
Qed.

Lemma scalatex_rejects (t : Tool World) (k : string) (s : list N)
  (params : gmap string value) (st : state World) :
  In t ScalaTex.tools ->
  In (k, TString) (properties t) ->
  params !! k = Some (VStr s) ->
  test_any ScalaTex.shell_special s = true ->
  exists e, execute t params st = (Returns (failure e), st).
Proof.
  intros Ht Hk Hs Hbad. apply param_lookup in Hs.
  destruct (scalatex_validatePath_special s Hbad) as [e1 Hpath].
  destruct (scalatex_validateModuleName_special s Hbad) as [e2 Hmod].
  unfold ScalaTex.tools in Ht. in_cases Ht; subst t;
    cbn [properties] in Hk; in_cases Hk;
    try discriminate Hk; injection Hk as <-;
    cbn [execute];
    unfold ScalaTex.scalatex_compile, ScalaTex.scalatex_run,
      ScalaTex.scalatex_watch, ScalaTex.scalatex_clean;
    rewrite Hs; rewrite ?Hpath, ?Hmod.
  all: repeat validation_step.
Qed.

(** C2, as the code has it. A string that contains a character of the
    adapter's rejected class makes the sanitizer throw, and when such a
    string is the value of a parameter that a tool declares as a string,
    the operation returns the failure record of the [catch] and leaves
    the state as it was: nothing is handed to the runtime. (Parameters
    declared as numbers or booleans do not go through the sanitizer.) *)
Theorem dangerous_string_never_spawns :
  (forall s, test_any Coleslaw.lisp_special s = true ->
     exists e, Coleslaw.sanitizeLispString (VStr s) = Throw e) /\
  (forall s, test_any Franklin.julia_special s = true ->
     exists e, Franklin.sanitizeJuliaString (VStr s) = Throw e) /\
  (forall (t : Tool World) k s params (st : state World),
     In t Coleslaw.tools -> In (k, TString) (properties t) ->
     params !! k = Some (VStr s) ->
     test_any Coleslaw.lisp_special s = true ->
     exists e, execute t params st = (Returns (failure e), st)) /\
  (forall (t : Tool World) k s params (st : state World),
     In t Franklin.tools -> In (k, TString) (properties t) ->
     params !! k = Some (VStr s) ->
     test_any Franklin.julia_special s = true ->
     exists e, execute t params st = (Returns (failure e), st)) /\
  (forall (t : Tool World) k s params (st : state World),
     In t ScalaTex.tools -> In (k, TString) (properties t) ->
     params !! k = Some (VStr s) ->
     test_any ScalaTex.shell_special s = true ->
     exists e, execute t params st = (Returns (failure e), st)).
Proof.
  split; [|split; [|split; [|split]]].
  - intros s Hs. rewrite (sanitizeLispString_special s Hs). eexists; reflexivity.
  - intros s Hs. rewrite (sanitizeJuliaString_special s Hs). eexists; reflexivity.
  - intros. eapply coleslaw_rejects; eassumption.
  - intros. eapply franklin_rejects; eassumption.
  - intros. eapply scalatex_rejects; eassumption.
Qed.
End Injection.

Lemma dangerous_string_never_spawns_witness :
  test_any Coleslaw.lisp_special (lit "a`b") = true /\
  exists e,
    @Coleslaw.coleslaw_new_post unit Worlds.all_good
      {[ "title"%string := VStr (lit "a`b") ]} (initial tt)
    = (Returns (failure e), initial tt).
Proof.
  split; [reflexivity|].
  destruct (@dangerous_string_never_spawns unit Worlds.all_good)
    as (_ & _ & Hcoleslaw & _).
  apply (Hcoleslaw
           {| name := "coleslaw_new_post";
              properties := [("path"%string, TString); ("title"%string, TString)];
              required := ["title"%string];
              execute := @Coleslaw.coleslaw_new_post unit Worlds.all_good |}
           "title"%string (lit "a`b")).
  - right; right; right; left; reflexivity.
  - right; left; reflexivity.
  - reflexivity.
  - reflexivity.
Defined.

(** C2 refuted as stated: a port value that contains a backtick is not
    rejected by [franklin_serve]; [parseInt] reads the leading 8080 and
    julia is spawned. *)
Lemma franklin_serve_port_backtick_spawns :
  test_any Franklin.julia_special (lit "8080`") = true /\
  exists r st,
    @Franklin.franklin_serve unit Worlds.all_good
      {[ "port"%string := VStr (lit "8080`") ]} (initial tt) = (Returns r, st) /\
    success r = true /\
    spawned st = [ {| exe := lit "julia";
                      args := [lit "-e"; lit "using Franklin; serve(port=8080)"];
                      cwd := Some (lit ".") |} ].
Proof.
  split; [reflexivity|].
  do 2 eexists. split; [vm_compute; reflexivity|]. split; reflexivity.
Qed.

(** ** Missing and non-string parameters *)

Section Substitution.
Context {World : Type} `{Runtime World}.





End Substitution.


(** ** Required parameters *)

Section Required.
Context {World : Type} `{Runtime World}.

End Required.



(** ** Exceptions at the operation boundary *)

Section Boundary.
Context {World : Type} `{Runtime World}.

Lemma try_catch_failure_never_throws (m : M World Result)
  (st : state World) (e : exn) :
  fst (try_catch m (fun e => ret (failure e)) st) <> Throws e.
Proof.
  unfold try_catch, ret. destruct (m st) as [[r | e' |] st']; discriminate.
Qed.

(** The tools whose body is inside a [try] never throw once they have
    their parameter object. *)
Lemma checked_tools_never_throw (t : Tool World)
  (params : gmap string value) (st : state World) (e : exn) :
  In t all_tools ->
  ~ In (name t) ["coleslaw_version"; "franklin_version"; "scalatex_version"]%string ->
  fst (execute t params st) <> Throws e.
Proof.
  intros Ht Hname. unfold all_tools, Coleslaw.tools, Franklin.tools,
    ScalaTex.tools in Ht. cbn [app] in Ht.
  in_cases Ht; subst t; cbn [name execute] in *;
    try (exfalso; apply Hname; cbn [In]; tauto);
    apply try_catch_failure_never_throws.
Qed.
End Boundary.

(** C1 at its failing input: with the binary missing, so that the spawn is
    rejected, the version tool of each adapter lets the exception out to
    the caller; no result record is returned. *)
Lemma version_tools_throw_when_binary_missing :
  fst (@Coleslaw.coleslaw_version unit Worlds.missing_binary ∅ (initial tt))
  = Throws Worlds.not_found /\
  fst (@Franklin.franklin_version unit Worlds.missing_binary ∅ (initial tt))
  = Throws Worlds.not_found /\
  fst (@ScalaTex.scalatex_version unit Worlds.missing_binary ∅ (initial tt))
  = Throws Worlds.not_found.
Proof. repeat split. Qed.

(** ** The connection flag *)

Section Lifecycle.
Context {World : Type} `{Runtime World}.

(** C6, as the code has it. The lifecycle of an adapter is the single
    boolean [connected], false at module load. [connect] against a
    missing binary (the spawn of the version probe is rejected) returns
    false and leaves the flag false; when the probe exits, [connect]
    returns its success and the flag holds it, so a present binary that
    exits with success gives true (ScalaTex probes mill and, when mill
    exits without success, sbt); [disconnect] from any state sets the
    flag to false. There is neither a connecting nor an error state. *)
Theorem connection_flag (st : state World) :
  connected (initial (world st)) = false /\
  (let probe := {| exe := Coleslaw.sblPath; args := [lit "--version"];
                   cwd := None |} in
   (forall e w, command_output probe (world st) = (SpawnFails e, w) ->
      exists st', Coleslaw.connect st = (Returns false, st') /\
                  Coleslaw.isConnected st' = false) /\
   (forall o w, command_output probe (world st) = (Exited o, w) ->
      exists st', Coleslaw.connect st = (Returns (out_success o), st') /\
                  Coleslaw.isConnected st' = out_success o)) /\
  (let probe := {| exe := Franklin.juliaPath; args := [lit "--version"];
                   cwd := None |} in
   (forall e w, command_output probe (world st) = (SpawnFails e, w) ->
      exists st', Franklin.connect st = (Returns false, st') /\
                  Franklin.isConnected st' = false) /\
   (forall o w, command_output probe (world st) = (Exited o, w) ->
      exists st', Franklin.connect st = (Returns (out_success o), st') /\
                  Franklin.isConnected st' = out_success o)) /\
  (forall d, deno_cwd (world st) = Ok d ->
   let probe := {| exe := ScalaTex.millPath; args := [lit "--version"];
                   cwd := Some d |} in
   (forall e w, command_output probe (world st) = (SpawnFails e, w) ->
      exists st', ScalaTex.connect st = (Returns false, st') /\
                  ScalaTex.isConnected st' = false) /\
   (forall o w, command_output probe (world st) = (Exited o, w) ->
      out_success o = true ->
      exists st', ScalaTex.connect st = (Returns true, st') /\
                  ScalaTex.isConnected st' = true) /\
   (forall o w d' o' w',
      command_output probe (world st) = (Exited o, w) ->
      out_success o = false ->
      deno_cwd w = Ok d' ->
      command_output {| exe := lit "sbt"; args := [lit "--version"];
                        cwd := Some d' |} w = (Exited o', w') ->
      exists st', ScalaTex.connect st = (Returns (out_success o'), st') /\
                  ScalaTex.isConnected st' = out_success o')) /\
  (exists st', Coleslaw.disconnect st = (Returns tt, st') /\
               Coleslaw.isConnected st' = false) /\
  (exists st', Franklin.disconnect st = (Returns tt, st') /\
               Franklin.isConnected st' = false) /\
  (exists st', ScalaTex.disconnect st = (Returns tt, st') /\
               ScalaTex.isConnected st' = false).
Proof.
  split; [reflexivity|]. split; [|split; [|split]].
  - split.
    + intros e w Hprobe. unfold Coleslaw.connect, try_catch, bind, output.
      rewrite Hprobe. eexists; split; reflexivity.
    + intros o w Hprobe. unfold Coleslaw.connect, try_catch, bind, output.
      rewrite Hprobe. eexists; split; reflexivity.
  - split.
    + intros e w Hprobe. unfold Franklin.connect, try_catch, bind, output.
      rewrite Hprobe. eexists; split; reflexivity.
    + intros o w Hprobe. unfold Franklin.connect, try_catch, bind, output.
      rewrite Hprobe. eexists; split; reflexivity.
  - intros d Hcwd probe. split; [|split].
    + intros e w Hprobe.
      unfold ScalaTex.connect, ScalaTex.runCommand, try_catch, bind, output,
        cwd_or_current, get_cwd, lift.
      rewrite Hcwd. fold probe. rewrite Hprobe. eexists; split; reflexivity.
    + intros o w Hprobe Hok.
      unfold ScalaTex.connect, ScalaTex.runCommand, try_catch, bind, output,
        cwd_or_current, get_cwd, lift.
      rewrite Hcwd. fold probe. rewrite Hprobe. cbn. rewrite Hok. cbn.
      eexists; split; reflexivity.
    + intros o w d' o' w' Hprobe Hko Hcwd' Hsbt.
      unfold ScalaTex.connect, ScalaTex.runCommand, ScalaTex.runSbt,
        try_catch, bind, output, cwd_or_current, get_cwd, lift.
      rewrite Hcwd. fold probe. rewrite Hprobe. cbn. rewrite Hko. cbn.
      rewrite Hcwd'. cbn. rewrite Hsbt. cbn. eexists; split; reflexivity.
  - repeat split; eexists; split; reflexivity.
Qed.
End Lifecycle.

Lemma connection_flag_witness :
  @command_output unit Worlds.missing_binary
    {| exe := Coleslaw.sblPath; args := [lit "--version"]; cwd := None |} tt
  = (SpawnFails Worlds.not_found, tt) /\
  exists st', @Coleslaw.connect unit Worlds.missing_binary (initial tt)
              = (Returns false, st') /\
              Coleslaw.isConnected st' = false.
Proof.
  split; [reflexivity|].
  destruct (@connection_flag unit Worlds.missing_binary (initial tt))
    as (_ & (Hmissing & _) & _).
  apply (Hmissing Worlds.not_found tt). reflexivity.
Defined.

(** C6 refuted as stated: after [connect] against a missing binary the
    adapter is in the very state it started in, so no reading of its state
    as one of the four named states maps the start to disconnected and the
    end to error. *)
Lemma connect_missing_binary_no_error_state :
  ~ exists view : bool -> SpecLifecycle,
      view (Coleslaw.isConnected (@initial unit tt)) = SpecDisconnected /\
      view (Coleslaw.isConnected
              (snd (@Coleslaw.connect unit Worlds.missing_binary (initial tt))))
      = SpecError.
Proof.
  intros (view & Hstart & Hend).
  change (view false = SpecDisconnected) in Hstart.
  change (view false = SpecError) in Hend.
  congruence.
Qed.

(** ** The command runners *)

Section Runners.
Context {World : Type} `{Runtime World}.

(** Every runner resolves the directory, makes one request and wraps the
    output of the process. *)
Lemma runner_awaits_exit (mk : list N -> CommandRequest)
  (dir : option (list N)) (d : list N) (st : state World) :
  cwd_or_current dir st = (Returns d, st) ->
  awaits_exit
    (bind (cwd_or_current dir)
       (fun d => bind (output (mk d)) (fun o => ret (result_of_output o))))
    (mk d) st.
Proof.
  intros Hdir. unfold awaits_exit, bind. rewrite Hdir. unfold output, ret.
  split; [intros w Hrun | intros o w Hrun]; rewrite Hrun; reflexivity.
Qed.

(** C9, as the code has it. No runner of the three adapters sets a
    timeout: the request carries the arguments and the directory only,
    and the runner waits for the process. While the process does not
    exit the invocation stays pending, no result is returned and nothing
    terminates the process; when it exits, after whatever time, the
    runner returns the output of the process. *)
Theorem runners_await_exit (dir : option (list N)) (d : list N)
  (a : list (list N)) (src : list N) (st : state World) :
  cwd_or_current dir st = (Returns d, st) ->
  awaits_exit (Coleslaw.runCommand a dir)
    {| exe := Coleslaw.sblPath; args := lit "--script" :: a; cwd := Some d |} st /\
  awaits_exit (Coleslaw.runColeslaw src dir)
    {| exe := Coleslaw.sblPath;
       args := [lit "--eval"; lit "(ql:quickload :coleslaw)";
                lit "--eval"; src; lit "--quit"];
       cwd := Some d |} st /\
  awaits_exit (Franklin.runJulia src dir)
    {| exe := Franklin.juliaPath; args := [lit "-e"; src]; cwd := Some d |} st /\
  awaits_exit (ScalaTex.runCommand a dir)
    {| exe := ScalaTex.millPath; args := a; cwd := Some d |} st /\
  awaits_exit (ScalaTex.runSbt a dir)
    {| exe := lit "sbt"; args := a; cwd := Some d |} st.
Proof.
  intros Hdir. split; [|split; [|split; [|split]]].
  - apply (runner_awaits_exit
             (fun d => {| exe := Coleslaw.sblPath; args := lit "--script" :: a;
                          cwd := Some d |}) dir d st Hdir).
  - apply (runner_awaits_exit
             (fun d => {| exe := Coleslaw.sblPath;
                          args := [lit "--eval"; lit "(ql:quickload :coleslaw)";
                                   lit "--eval"; src; lit "--quit"];
                          cwd := Some d |}) dir d st Hdir).
  - apply (runner_awaits_exit
             (fun d => {| exe := Franklin.juliaPath; args := [lit "-e"; src];
                          cwd := Some d |}) dir d st Hdir).
  - apply (runner_awaits_exit
             (fun d => {| exe := ScalaTex.millPath; args := a; cwd := Some d |})
             dir d st Hdir).
  - apply (runner_awaits_exit
             (fun d => {| exe := lit "sbt"; args := a; cwd := Some d |})
             dir d st Hdir).
Qed.
End Runners.

Lemma runners_await_exit_witness :
  @cwd_or_current unit Worlds.hanging (Some (lit "site")) (initial tt)
  = (Returns (lit "site"), initial tt) /\
  @Franklin.runJulia unit Worlds.hanging (lit "using Franklin; publish()")
    (Some (lit "site")) (initial tt)
  = (Pending,
     after_spawn (initial tt)
       {| exe := Franklin.juliaPath;
          args := [lit "-e"; lit "using Franklin; publish()"];
          cwd := Some (lit "site") |} tt).
Proof.
  split; [reflexivity|].
  destruct (@runners_await_exit unit Worlds.hanging (Some (lit "site"))
              (lit "site") [] (lit "using Franklin; publish()") (initial tt)
              eq_refl) as (_ & _ & [Hpending _] & _).
  apply (Hpending tt). reflexivity.
Defined.

(** C9 refuted as stated: when the spawned process never exits, which is
    longer than any bound, [runJulia] and the tool that calls it return no
    result at all, and so no failure result either. *)
Lemma hanging_process_returns_nothing :
  (~ exists r st,
       @Franklin.runJulia unit Worlds.hanging (lit "using Franklin; publish()")
         None (initial tt) = (Returns r, st)) /\
  (~ exists r st,
       @Franklin.franklin_publish unit Worlds.hanging ∅ (initial tt)
       = (Returns r, st)) /\
  fst (@Franklin.franklin_publish unit Worlds.hanging ∅ (initial tt)) = Pending.
Proof.
  split; [|split].
  - intros (r & st & Hrun). vm_compute in Hrun. discriminate Hrun.
  - intros (r & st & Hrun). vm_compute in Hrun. discriminate Hrun.
  - reflexivity.
Qed.

(** ** The result record *)

Section Protocol.
Context {World : Type} `{Runtime World}.

Lemma bind_lift_returns {A B} (V : result A) (k : A -> M World B)
  (st st' : state World) (r : B) :
  bind (lift V) k st = (Returns r, st') ->
  exists a, V = Ok a /\ k a st = (Returns r, st').
Proof.
  unfold bind, lift. destruct V as [a | e]; [|discriminate].
  intros Hk. exists a. split; [reflexivity | exact Hk].
Qed.

Lemma bind_lift_throws {A B} (V : result A) (k : A -> M World B)
  (st st' : state World) (e : exn) :
  bind (lift V) k st = (@Throws B e, st') ->
  V = Throw e \/ exists a, V = Ok a /\ k a st = (Throws e, st').
Proof.
  unfold bind, lift. destruct V as [a | e0].
  - intros Hk. right. exists a. split; [reflexivity | exact Hk].
  - intros [= <- _]. left. reflexivity.
Qed.

(** A result that comes out of [try ... catch] was returned by the body,
    or is the failure record of the very error the body threw. *)
Lemma try_catch_origin (m : M World Result) (st st' : state World)
  (r : Result) :
  try_catch m (fun e => ret (failure e)) st = (Returns r, st') ->
  m st = (Returns r, st') \/
  exists e, m st = (Throws e, st') /\ r = failure e.
Proof.
  unfold try_catch, ret. destruct (m st) as [[r0 | e |] st0].
  - intros [= <- <-]. left. reflexivity.
  - intros [= <- <-]. right. exists e. split; reflexivity.
  - discriminate.
Qed.

Lemma cwd_or_current_state (dir : option (list N)) (st : state World) :
  (exists d, cwd_or_current dir st = (Returns d, st)) \/
  (exists e, cwd_or_current dir st = (Throws e, st) /\
             deno_cwd (world st) = Throw e).
Proof.
  destruct dir as [[|c d]|]; cbn [cwd_or_current]; unfold ret, get_cwd, lift;
    try (left; eexists; reflexivity);
    destruct (deno_cwd (world st)) as [d | e];
    solve [ left; eexists; reflexivity
          | right; exists e; split; reflexivity ].
Qed.

(** What a runner returns is the output of the process it spawned in the
    world of the call. *)
Lemma runner_returns_at (mk : list N -> CommandRequest)
  (dir : option (list N)) (st st' : state World) (r : Result) :
  bind (cwd_or_current dir)
    (fun d => bind (output (mk d)) (fun o => ret (result_of_output o))) st
  = (Returns r, st') ->
  exists o, process_exited (world st) o /\ r = result_of_output o.
Proof.
  unfold bind at 1.
  destruct (cwd_or_current_state dir st) as [[d ->] | (e & -> & _)];
    [|discriminate].
  unfold bind, output, ret.
  destruct (command_output (mk d) (world st)) as [[o | e |] w] eqn:Hrun;
    try discriminate.
  intros [= <- <-]. exists o. split; [|reflexivity].
  exists (mk d), w. exact Hrun.
Qed.

(** What a runner throws is what the runtime threw in the world of the
    call. *)
Lemma runner_throws_at (mk : list N -> CommandRequest)
  (dir : option (list N)) (st st' : state World) (e : exn) :
  bind (cwd_or_current dir)
    (fun d => bind (output (mk d)) (fun o => ret (result_of_output o))) st
  = (Throws e, st') ->
  runtime_throws (world st) e.
Proof.
  unfold bind at 1.
  destruct (cwd_or_current_state dir st) as [[d ->] | (e0 & -> & Hcwd)].
  - unfold bind, output, ret.
    destruct (command_output (mk d) (world st)) as [[o | e0 |] w] eqn:Hrun;
      try discriminate.
    intros [= <- _]. right. exists (mk d), w. exact Hrun.
  - intros [= <- _]. left. exact Hcwd.
Qed.

(** From a validation stage that threw to the validator that threw. *)
Ltac validator_case HV :=
  unfold rbind in HV;
  repeat match type of HV with
         | context [if ?b then _ else _] => destruct b eqn:?
         | context [match ?x with Ok _ => _ | Throw _ => _ end] =>
             lazymatch x with
             | context [match _ with _ => _ end] => fail
             | _ => destruct x eqn:?
             end
         end;
  try discriminate HV;
  try (match type of HV with
       | context [VNum 8080] => vm_compute in HV; discriminate HV
       end);
  try (injection HV as ->);
  match goal with
  | Hv : ?f (param ?params ?k) = Throw ?e |- _ =>
      left; exists k, e;
      split; [cbn [map fst In]; tauto|];
      split; [unfold validator_throws; tauto | reflexivity]
  end.

(** Where the result of a tool comes from, when it returns one: it is the
    failure record of an error that a validator threw on one of the
    declared parameters of the call, or of an error that the runtime threw
    in the world of the call, or it is the output of the process that the
    call spawned. The version tools of Coleslaw and Franklin build their
    record by hand and are left out. *)
Lemma tool_result_origin (t : Tool World) (params : gmap string value)
  (st st' : state World) (r : Result) :
  In t all_tools ->
  ~ In (name t) ["coleslaw_version"; "franklin_version"]%string ->
  execute t params st = (Returns r, st') ->
  (exists k e, In k (map fst (properties t)) /\
               validator_throws (param params k) e /\ r = failure e) \/
  (exists e, runtime_throws (world st) e /\ r = failure e) \/
  (exists o, process_exited (world st) o /\ r = result_of_output o).
Proof.
  intros Ht Hname Hrun. unfold all_tools, Coleslaw.tools, Franklin.tools,
    ScalaTex.tools in Ht. cbn [app] in Ht.
  in_cases Ht; subst t; cbn [name execute properties] in *;
    try (exfalso; apply Hname; cbn [In]; tauto).
  all: try (apply try_catch_origin in Hrun as [Hrun | (e & Hthrow & ->)]).
  all: try (cbv zeta in Hrun;
            repeat match type of Hrun with
                   | bind (lift _) _ _ = _ =>
                       apply bind_lift_returns in Hrun as (? & _ & Hrun)
                   end;
            right; right; eapply runner_returns_at; exact Hrun).
  all: cbv zeta in Hthrow;
    repeat match type of Hthrow with
           | bind (lift _) _ _ = _ =>
               let HV := fresh "HV" in
               apply bind_lift_throws in Hthrow as [HV | (? & _ & Hthrow)];
               [validator_case HV|]
           end.
  all: right; left; exists e; split; [|reflexivity];
    eapply runner_throws_at; exact Hthrow.
Qed.

(** The message of every error a validator throws is not empty. *)
Lemma validator_message (v : value) (e : exn) :
  validator_throws v e -> message e <> [].
Proof.
  unfold validator_throws, Coleslaw.sanitizeLispString, Coleslaw.validatePath,
    Coleslaw.validatePort, Franklin.sanitizeJuliaString,
    Franklin.sanitizeHost, Franklin.validatePath, Franklin.validatePort,
    ScalaTex.validateModuleName, ScalaTex.validatePath,
    Coleslaw.sanitizeLispString, Franklin.sanitizeJuliaString,
    method_includes, rbind.
  intros Hthrow.
  repeat match type of Hthrow with
         | _ \/ _ => destruct Hthrow as [Hthrow | Hthrow]
         end.
  all: repeat match type of Hthrow with
              | context [match ?x with _ => _ end] =>
                  lazymatch x with
                  | context [match _ with _ => _ end] => fail
                  | _ => destruct x
                  end
              end;
    try discriminate Hthrow; injection Hthrow as <-; vm_compute; discriminate.
Qed.

(** C3, as the code has it. Whenever a tool other than the version tools
    of Coleslaw and Franklin returns a result, the record has its [code],
    and, given that Deno reports success only for exit status 0, success
    implies code 0. A result without success is one of three records: the
    failure record (empty stdout, code 1) whose stderr is the message of
    the error that a validator threw on one of the declared parameters of
    the call, and that message is not empty; the failure record whose
    stderr is the message of the error that the runtime threw in the call
    ([Deno.cwd()] or a rejected spawn), whatever that message is; or the
    output of the process that the call spawned, with what the process
    wrote to its standard error, be it nothing. *)
Theorem result_protocol (t : Tool World) (params : gmap string value)
  (st st' : state World) (r : Result) :
  (forall req (w : World) o w',
     command_output req w = (Exited o, w') ->
     out_success o = true -> out_code o = 0%Z) ->
  In t all_tools ->
  ~ In (name t) ["coleslaw_version"; "franklin_version"]%string ->
  execute t params st = (Returns r, st') ->
  (exists c, code r = Some c) /\
  (success r = true -> code r = Some 0%Z) /\
  (success r = false ->
     (exists k e,
        In k (map fst (properties t)) /\
        validator_throws (param params k) e /\
        message e <> [] /\
        r = {| success := false; stdout := []; stderr := message e;
               code := Some 1%Z |}) \/
     (exists e,
        runtime_throws (world st) e /\
        r = {| success := false; stdout := []; stderr := message e;
               code := Some 1%Z |}) \/
     (exists o,
        process_exited (world st) o /\
        r = {| success := false; stdout := out_stdout o;
               stderr := out_stderr o; code := Some (out_code o) |})).
Proof.
  intros Hexit Ht Hname Hrun.
  destruct (tool_result_origin t params st st' r Ht Hname Hrun)
    as [(k & e & Hk & Hv & ->) | [(e & He & ->) | (o & Ho & ->)]].
  - split; [eexists; reflexivity|]. split; [discriminate|].
    intros _. left. exists k, e.
    split; [exact Hk|]. split; [exact Hv|].
    split; [apply (validator_message _ _ Hv) | reflexivity].
  - split; [eexists; reflexivity|]. split; [discriminate|].
    intros _. right; left. exists e. split; [exact He | reflexivity].
  - split; [eexists; reflexivity|]. split.
    + cbn. intros Hok. destruct Ho as (req & w' & Hout).
      rewrite (Hexit req (world st) o w' Hout Hok). reflexivity.
    + cbn. intros Hko. right; right. exists o.
      split; [exact Ho|]. unfold result_of_output. rewrite Hko. reflexivity.
Qed.
End Protocol.

Lemma result_protocol_witness :
  exists r st',
    @Coleslaw.coleslaw_build unit Worlds.all_good ∅ (initial tt) = (Returns r, st') /\
    (success r = true -> code r = Some 0%Z).
Proof.
  do 2 eexists. split; [vm_compute; reflexivity|].
  refine (proj1 (proj2
    (@result_protocol unit Worlds.all_good
       {| name := "coleslaw_build"; properties := [("path"%string, TString)];
          required := [];
          execute := @Coleslaw.coleslaw_build unit Worlds.all_good |}
       ∅ (initial tt) _ _ _ _ _ _))).
  - intros req w o w' Hout Hok. vm_compute in Hout.
    injection Hout as <- _. reflexivity.
  - right; left; reflexivity.
  - cbn. intros [Hn | [Hn | []]]; discriminate Hn.
  - vm_compute. reflexivity.
Defined.

(** The records that [coleslaw_version] and [franklin_version] build by
    hand have no [code]. *)
Lemma version_results_lack_code :
  (exists r st,
     @Coleslaw.coleslaw_version unit Worlds.all_good ∅ (initial tt)
     = (Returns r, st) /\ code r = None) /\
  (exists r st,
     @Franklin.franklin_version unit Worlds.all_good ∅ (initial tt)
     = (Returns r, st) /\ code r = None).
Proof. split; do 2 eexists; (split; [vm_compute; reflexivity | reflexivity]). Qed.

(** C3 refuted as stated: when the process exits with status 1 and writes
    nothing, [coleslaw_build] returns a result with success false and an
    empty stderr. *)
Lemma silent_failure_has_empty_stderr :
  exists r st,
    @Coleslaw.coleslaw_build unit Worlds.silent_failure ∅ (initial tt)
    = (Returns r, st) /\
    success r = false /\
    stderr r = [].
Proof.
  do 2 eexists. split; [vm_compute; reflexivity|]. split; reflexivity.
Qed.

(** * Further properties of the validators *)

(** ** Character classes against each other *)

Lemma lisp_special_not_safe (c : N) :
  Coleslaw.lisp_special c = true -> safe_char c = false.
Proof. intros Hc. unfold Coleslaw.lisp_special in Hc. one_of_cases Hc; reflexivity. Qed.

Lemma julia_special_not_safe (c : N) :
  Franklin.julia_special c = true -> safe_char c = false.
Proof. intros Hc. unfold Franklin.julia_special in Hc. one_of_cases Hc; reflexivity. Qed.

Lemma forallb_existsb_false {A} (P Q : A -> bool) (l : list A) :
  (forall c, P c = true -> Q c = false) ->
  forallb Q l = true -> existsb P l = false.
Proof.
  intros HPQ Hall. destruct (existsb P l) eqn:Hex; [|reflexivity].
  rewrite (existsb_forallb_false P Q l HPQ Hex) in Hall. discriminate.
Qed.

Lemma test_all1_forallb (cls : N -> bool) (s : list N) :
  test_all1 cls s = true -> s <> [] /\ forallb cls s = true.
Proof. destruct s; [discriminate|]. intros Hs. split; [discriminate | exact Hs]. Qed.

Lemma forallb_test_all1 (cls : N -> bool) (s : list N) :
  s <> [] -> forallb cls s = true -> test_all1 cls s = true.
Proof. destruct s; [congruence|]. intros _ Hs. exact Hs. Qed.

Lemma includes_head (s sub : list N) (c : N) :
  includes s (c :: sub) = true -> In c s.
Proof.
  induction s as [|a s IH]; [discriminate|].
  cbn [includes starts_with]. intros Hinc.
  apply orb_prop in Hinc as [Hhere | Hlater].
  - apply andb_prop in Hhere as [Hc _]. apply N.eqb_eq in Hc. left. congruence.
  - right. apply IH, Hlater.
Qed.

(** A string all of whose code units are in a class does not include a
    string that starts outside the class. *)
Lemma forallb_not_includes (cls : N -> bool) (s sub : list N) (c : N) :
  cls c = false -> forallb cls s = true -> includes s (c :: sub) = false.
Proof.
  intros Hc Hall. destruct (includes s (c :: sub)) eqn:Hinc; [|reflexivity].
  apply includes_head in Hinc.
  rewrite forallb_forall in Hall. rewrite (Hall c Hinc) in Hc. discriminate.
Qed.

Lemma forallb_not_In (cls : N -> bool) (s : list N) (c : N) :
  cls c = false -> forallb cls s = true -> ~ In c s.
Proof.
  intros Hc Hall Hin. rewrite forallb_forall in Hall.
  rewrite (Hall c Hin) in Hc. discriminate.
Qed.

(** ** The sanitizers *)

Lemma sanitizeLispString_accepts (s s' : list N) :
  Coleslaw.sanitizeLispString (VStr s) = Ok s' ->
  s' = s /\ test_all1 safe_char s = true.
Proof.
  unfold Coleslaw.sanitizeLispString.
  destruct (test_any Coleslaw.lisp_special s); [discriminate|].
  destruct (test_all1 safe_char s); [|discriminate].
  intros [= <-]. split; reflexivity.
Qed.

Lemma sanitizeLispString_safe (s : list N) :
  test_all1 safe_char s = true -> Coleslaw.sanitizeLispString (VStr s) = Ok s.
Proof.
  intros Hsafe. unfold Coleslaw.sanitizeLispString.
  destruct (test_all1_forallb _ _ Hsafe) as [_ Hall]. unfold test_any.
  rewrite (forallb_existsb_false _ _ s lisp_special_not_safe Hall), Hsafe.
  reflexivity.
Qed.

Lemma sanitizeJuliaString_accepts (s s' : list N) :
  Franklin.sanitizeJuliaString (VStr s) = Ok s' ->
  s' = s /\ test_all1 safe_char s = true.
Proof.
  unfold Franklin.sanitizeJuliaString.
  destruct (test_any Franklin.julia_special s); [discriminate|].
  destruct (test_all1 safe_char s); [|discriminate].
  intros [= <-]. split; reflexivity.
Qed.

Lemma sanitizeJuliaString_safe (s : list N) :
  test_all1 safe_char s = true -> Franklin.sanitizeJuliaString (VStr s) = Ok s.
Proof.
  intros Hsafe. unfold Franklin.sanitizeJuliaString.
  destruct (test_all1_forallb _ _ Hsafe) as [_ Hall]. unfold test_any.
  rewrite (forallb_existsb_false _ _ s julia_special_not_safe Hall), Hsafe.
  reflexivity.
Qed.

Lemma sanitizeLispString_output (v : value) (s : list N) :
  Coleslaw.sanitizeLispString v = Ok s -> forallb safe_char s = true.
Proof.
  destruct v as [| |b|n|s0|]; try (intros [= <-]; reflexivity).
  intros Hok. apply sanitizeLispString_accepts in Hok as [-> Hsafe].
  apply test_all1_forallb, Hsafe.
Qed.

Lemma sanitizeJuliaString_output (v : value) (s : list N) :
  Franklin.sanitizeJuliaString v = Ok s -> forallb safe_char s = true.
Proof.
  destruct v as [| |b|n|s0|]; try (intros [= <-]; reflexivity).
  intros Hok. apply sanitizeJuliaString_accepts in Hok as [-> Hsafe].
  apply test_all1_forallb, Hsafe.
Qed.

(** X1. On strings, each sanitizer accepts exactly the non-empty strings
    made of letters, digits, dot, underscore, dash, slash and space, and
    returns the accepted string unchanged; the first regular expression
    only decides which message a rejected string gets. *)
Theorem sanitizers_accept_safe_text (s s' : list N) :
  (Coleslaw.sanitizeLispString (VStr s) = Ok s' <->
   s' = s /\ test_all1 safe_char s = true) /\
  (Franklin.sanitizeJuliaString (VStr s) = Ok s' <->
   s' = s /\ test_all1 safe_char s = true).
Proof.
  split; split.
  - apply sanitizeLispString_accepts.
  - intros [-> Hsafe]. apply sanitizeLispString_safe, Hsafe.
  - apply sanitizeJuliaString_accepts.
  - intros [-> Hsafe]. apply sanitizeJuliaString_safe, Hsafe.
Qed.

(** ** Validated paths *)

Lemma coleslaw_validatePath_cases (v : value) (p : list N) :
  Coleslaw.validatePath v = Ok p ->
  (truthy v = false /\ p = lit ".") \/
  (truthy v = true /\ is_string v = false /\ p = []) \/
  (v = VStr p /\ test_all1 safe_char p = true /\ includes p (lit "..") = false).
Proof.
  unfold Coleslaw.validatePath. destruct (truthy v) eqn:Ht; cbn [negb].
  - destruct v as [| |b|n|s|];
      try (cbn [Coleslaw.sanitizeLispString rbind];
           change (includes [] (lit "..")) with false; cbv iota;
           intros [= <-]; right; left; auto).
    destruct (Coleslaw.sanitizeLispString (VStr s)) as [s'|e] eqn:Hs;
      [|discriminate].
    apply sanitizeLispString_accepts in Hs as [-> Hsafe]. cbn [rbind].
    destruct (includes s (lit "..")) eqn:Hinc; [discriminate|].
    intros [= <-]. right; right. auto.
  - intros [= <-]. left. auto.
Qed.

Lemma franklin_validatePath_cases (v : value) (p : list N) :
  Franklin.validatePath v = Ok p ->
  (truthy v = false /\ p = lit ".") \/
  (truthy v = true /\ is_string v = false /\ p = []) \/
  (v = VStr p /\ test_all1 safe_char p = true /\ includes p (lit "..") = false).
Proof.
  unfold Franklin.validatePath. destruct (truthy v) eqn:Ht; cbn [negb].
  - destruct v as [| |b|n|s|];
      try (cbn [Franklin.sanitizeJuliaString rbind];
           change (includes [] (lit "..")) with false; cbv iota;
           intros [= <-]; right; left; auto).
    destruct (Franklin.sanitizeJuliaString (VStr s)) as [s'|e] eqn:Hs;
      [|discriminate].
    apply sanitizeJuliaString_accepts in Hs as [-> Hsafe]. cbn [rbind].
    destruct (includes s (lit "..")) eqn:Hinc; [discriminate|].
    intros [= <-]. right; right. auto.
  - intros [= <-]. left. auto.
Qed.

Lemma coleslaw_validatePath_output (v : value) (p : list N) :
  Coleslaw.validatePath v = Ok p -> forallb safe_char p = true.
Proof.
  intros Hok. apply coleslaw_validatePath_cases in Hok
    as [[_ ->] | [(_ & _ & ->) | (_ & Hall & _)]];
    [reflexivity | reflexivity | apply test_all1_forallb, Hall].
Qed.

Lemma franklin_validatePath_output (v : value) (p : list N) :
  Franklin.validatePath v = Ok p -> forallb safe_char p = true.
Proof.
  intros Hok. apply franklin_validatePath_cases in Hok
    as [[_ ->] | [(_ & _ & ->) | (_ & Hall & _)]];
    [reflexivity | reflexivity | apply test_all1_forallb, Hall].
Qed.

(** X2. Whatever the input, a path returned by the [validatePath] of
    Coleslaw or Franklin is made of safe characters only and has no two
    consecutive dots; in particular it holds no double quote and no
    backslash, so it cannot close the quoted string it is put into. *)
Theorem validated_path_is_safe (v : value) (p : list N) :
  Coleslaw.validatePath v = Ok p \/ Franklin.validatePath v = Ok p ->
  forallb safe_char p = true /\
  includes p (lit "..") = false /\
  ~ In 34 p /\ ~ In 92 p.
Proof.
  intros Hok.
  assert (Hcases :
    (truthy v = false /\ p = lit ".") \/
    (truthy v = true /\ is_string v = false /\ p = []) \/
    (v = VStr p /\ test_all1 safe_char p = true /\ includes p (lit "..") = false)).
  { destruct Hok as [Hok | Hok];
      [apply coleslaw_validatePath_cases | apply franklin_validatePath_cases];
      exact Hok. }
  assert (Hsafe : forallb safe_char p = true /\ includes p (lit "..") = false).
  { destruct Hcases as [[_ ->] | [(_ & _ & ->) | (_ & Hall & Hinc)]].
    - split; reflexivity.
    - split; reflexivity.
    - split; [apply test_all1_forallb, Hall | exact Hinc]. }
  destruct Hsafe as [Hall Hinc]. split; [exact Hall|]. split; [exact Hinc|].
  split; apply (forallb_not_In safe_char); auto.
Qed.

Lemma validated_path_is_safe_witness :
  Coleslaw.validatePath (VStr (lit "site/blog 1")) = Ok (lit "site/blog 1") /\
  ~ In 34 (lit "site/blog 1").
Proof.
  split; [reflexivity|].
  apply (validated_path_is_safe (VStr (lit "site/blog 1")) (lit "site/blog 1")).
  left. reflexivity.
Defined.

(** X3. A path that [validatePath] of Coleslaw or Franklin returned is
    accepted again and returned unchanged, unless it is the empty string
    (which only a truthy value that is not a string yields, and which is
    then replaced by the one-dot string). *)
Theorem validatePath_idempotent (v : value) (p : list N) :
  p <> [] ->
  (Coleslaw.validatePath v = Ok p -> Coleslaw.validatePath (VStr p) = Ok p) /\
  (Franklin.validatePath v = Ok p -> Franklin.validatePath (VStr p) = Ok p).
Proof.
  intros Hp. split; intros Hok.
  - apply coleslaw_validatePath_cases in Hok
      as [[_ ->] | [(_ & _ & ->) | (_ & Hall & Hinc)]];
      [reflexivity | congruence |].
    unfold Coleslaw.validatePath.
    destruct p as [|c p]; [congruence|]. cbn [truthy negb].
    rewrite (sanitizeLispString_safe _ Hall). cbn [rbind]. rewrite Hinc.
    reflexivity.
  - apply franklin_validatePath_cases in Hok
      as [[_ ->] | [(_ & _ & ->) | (_ & Hall & Hinc)]];
      [reflexivity | congruence |].
    unfold Franklin.validatePath.
    destruct p as [|c p]; [congruence|]. cbn [truthy negb].
    rewrite (sanitizeJuliaString_safe _ Hall). cbn [rbind]. rewrite Hinc.
    reflexivity.
Qed.

Lemma validatePath_idempotent_witness :
  lit "." <> [] /\
  Coleslaw.validatePath (VStr (lit ".")) = Ok (lit ".").
Proof.
  split; [discriminate|].
  apply (validatePath_idempotent VUndefined (lit ".")); [discriminate|].
  reflexivity.
Defined.

Lemma shell_special_not_safe (c : N) :
  ScalaTex.shell_special c = true -> safe_char c = false.
Proof. intros Hc. unfold ScalaTex.shell_special in Hc. one_of_cases Hc; reflexivity. Qed.

(** X4. On strings, the [validatePath] of ScalaTex returns null for the
    empty string, and returns a non-empty string, unchanged, exactly when
    it has no two consecutive dots and none of semicolon, ampersand, bar,
    backtick and dollar. It is the weakest of the three path validators:
    every non-empty string that the [validatePath] of Coleslaw or of
    Franklin accepts is accepted by the one of ScalaTex. Every falsy value
    gives null. *)
Theorem scalatex_validatePath_spec :
  (forall v, truthy v = false -> ScalaTex.validatePath v = Ok None) /\
  (forall s r, s <> [] ->
     (ScalaTex.validatePath (VStr s) = Ok r <->
      r = Some s /\ includes s (lit "..") = false /\
      test_any ScalaTex.shell_special s = false)) /\
  (forall s p, s <> [] ->
     Coleslaw.validatePath (VStr s) = Ok p \/
     Franklin.validatePath (VStr s) = Ok p ->
     ScalaTex.validatePath (VStr s) = Ok (Some s)).
Proof.
  split; [|split].
  - intros v Hv. unfold ScalaTex.validatePath. rewrite Hv. reflexivity.
  - intros s r Hs. destruct s as [|c s]; [congruence|].
    unfold ScalaTex.validatePath.
    cbn [truthy negb method_includes rbind to_string]. split.
    + destruct (includes (c :: s) (lit "..")) eqn:Hinc; [discriminate|].
      destruct (test_any ScalaTex.shell_special (c :: s)) eqn:Hsh;
        [discriminate|].
      intros [= <-]. repeat split.
    + intros (-> & Hinc & Hsh). rewrite Hinc, Hsh. reflexivity.
  - intros s p Hs Hok.
    assert (Hcases : test_all1 safe_char s = true /\
                     includes s (lit "..") = false).
    { destruct Hok as [Hok | Hok];
        [apply coleslaw_validatePath_cases in Hok
        |apply franklin_validatePath_cases in Hok];
        destruct Hok as [[Ht _] | [(_ & Hstr & _) | (Heq & Hall & Hinc)]];
        try discriminate Hstr;
        try (destruct s; [congruence | discriminate Ht]);
        injection Heq as <-; split; assumption. }
    destruct Hcases as [Hall Hinc].
    destruct (test_all1_forallb _ _ Hall) as [_ Hforall].
    destruct s as [|c s]; [congruence|].
    unfold ScalaTex.validatePath.
    cbn [truthy negb method_includes rbind to_string]. rewrite Hinc.
    unfold test_any.
    rewrite (forallb_existsb_false _ _ (c :: s) shell_special_not_safe Hforall).
    reflexivity.
Qed.

(** ** Module names *)

Lemma identifier_chars (s : list N) :
  test_identifier s = true ->
  s <> [] /\ forallb (fun d => is_alnum d || (d =? 95)) s = true.
Proof.
  destruct s as [|c s]; [discriminate|]. cbn [test_identifier forallb].
  intros Hid. apply andb_prop in Hid as [Hc Hs]. split; [discriminate|].
  rewrite Hs, andb_true_r. unfold is_alnum.
  destruct (is_lower c), (is_upper c), (c =? 95), (is_digit c);
    try reflexivity; discriminate.
Qed.

Lemma test_identifier_num (n : Z) : test_identifier (num_to_string n) = false.
Proof.
  assert (Hdigits : forall m, test_identifier (digits m) = false).
  { intros m. unfold digits.
    destruct (digits_aux_head (N.to_nat (N.size m)) m []) as (d & tl & -> & Hd).
    cbn [test_identifier].
    unfold is_digit, in_range in Hd. apply andb_prop in Hd as [Hlo Hhi].
    apply N.leb_le in Hlo. apply N.leb_le in Hhi.
    unfold is_lower, is_upper, in_range.
    replace (97 <=? d) with false by (symmetry; apply N.leb_gt; lia).
    replace (65 <=? d) with false by (symmetry; apply N.leb_gt; lia).
    replace (d =? 95) with false by (symmetry; apply N.eqb_neq; lia).
    reflexivity. }
  destruct n as [|p|p]; cbn [num_to_string]; [apply Hdigits | apply Hdigits |].
  reflexivity.
Qed.

Lemma identifier_validates (s : list N) :
  test_identifier s = true -> ScalaTex.validateModuleName (VStr s) = Ok s.
Proof.
  intros Hid. destruct (identifier_chars s Hid) as [Hne Hall].
  unfold ScalaTex.validateModuleName.
  destruct s as [|c s]; [congruence|].
  cbn [truthy negb to_string method_includes rbind]. rewrite Hid. cbn [negb].
  change (lit "..") with [46; 46]. change (lit "/") with [47].
  change (lit "\") with [92].
  rewrite (forallb_not_includes _ (c :: s) [46] 46 eq_refl Hall).
  cbv iota.
  rewrite (forallb_not_includes _ (c :: s) [] 47 eq_refl Hall).
  cbv iota.
  rewrite (forallb_not_includes _ (c :: s) [] 92 eq_refl Hall).
  reflexivity.
Qed.

Lemma validateModuleName_output (v : value) (m : list N) :
  ScalaTex.validateModuleName v = Ok m ->
  test_identifier m = true /\
  ((truthy v = false /\ m = lit "docs") \/ v = VStr m).
Proof.
  intros Hok. destruct (truthy v) eqn:Ht.
  - destruct v as [| |b|n|s|]; try discriminate Ht.
    + destruct b; [|discriminate Ht]. vm_compute in Hok. discriminate Hok.
    + unfold ScalaTex.validateModuleName in Hok. rewrite Ht in Hok.
      cbn [negb to_string] in Hok. rewrite test_identifier_num in Hok.
      discriminate Hok.
    + destruct (test_identifier s) eqn:Hid.
      * rewrite (identifier_validates s Hid) in Hok. injection Hok as <-.
        split; [exact Hid | right; reflexivity].
      * unfold ScalaTex.validateModuleName in Hok. rewrite Ht in Hok.
        cbn [negb to_string] in Hok. rewrite Hid in Hok. discriminate Hok.
    + vm_compute in Hok. discriminate Hok.
  - unfold ScalaTex.validateModuleName in Hok. rewrite Ht in Hok.
    injection Hok as <-. split; [reflexivity | left; split; reflexivity].
Qed.

(** X5. On strings, [validateModuleName] accepts exactly the identifiers
    (a letter or underscore followed by letters, digits and underscores)
    and returns the accepted string unchanged; the empty string, like every
    falsy value, gives the default [docs]. *)
Theorem validateModuleName_spec :
  (forall v, truthy v = false ->
     ScalaTex.validateModuleName v = Ok (lit "docs")) /\
  (forall s m, s <> [] ->
     (ScalaTex.validateModuleName (VStr s) = Ok m <->
      m = s /\ test_identifier s = true)).
Proof.
  split.
  - intros v Hv. unfold ScalaTex.validateModuleName. rewrite Hv. reflexivity.
  - intros s m Hs. split.
    + intros Hok.
      destruct (validateModuleName_output _ _ Hok)
        as [Hid [[Hfalsy _] | Heq]].
      * destruct s; [congruence | discriminate Hfalsy].
      * injection Heq as <-. split; [reflexivity | exact Hid].
    + intros [-> Hid]. apply identifier_validates, Hid.
Qed.

Lemma validateModuleName_spec_witness :
  lit "MyModule_2" <> [] /\
  test_identifier (lit "MyModule_2") = true /\
  ScalaTex.validateModuleName (VStr (lit "MyModule_2")) = Ok (lit "MyModule_2").
Proof.
  split; [discriminate|]. split; [reflexivity|].
  apply (proj2 validateModuleName_spec (lit "MyModule_2") (lit "MyModule_2"));
    [discriminate | split; reflexivity].
Defined.

(** X6. The path traversal error of [validateModuleName] is never thrown:
    whatever passes the identifier test holds no dot, slash or backslash,
    so the three [includes] tests that follow can only be false (or, on a
    value that is not a string, fail with a TypeError). *)
Theorem validateModuleName_traversal_unreachable (v : value) :
  ScalaTex.validateModuleName v
  <> Throw (Error (lit "Invalid module name: path traversal not allowed")).
Proof.
  intros Hthrow. destruct (truthy v) eqn:Ht.
  - destruct v as [| |b|n|s|]; try discriminate Ht.
    + destruct b; [|discriminate Ht]. vm_compute in Hthrow. discriminate Hthrow.
    + unfold ScalaTex.validateModuleName in Hthrow. rewrite Ht in Hthrow.
      cbn [negb to_string] in Hthrow. rewrite test_identifier_num in Hthrow.
      injection Hthrow as Hmsg. vm_compute in Hmsg. discriminate Hmsg.
    + destruct (test_identifier s) eqn:Hid.
      * rewrite (identifier_validates s Hid) in Hthrow. discriminate Hthrow.
      * unfold ScalaTex.validateModuleName in Hthrow. rewrite Ht in Hthrow.
        cbn [negb to_string] in Hthrow. rewrite Hid in Hthrow.
        injection Hthrow as Hmsg. vm_compute in Hmsg. discriminate Hmsg.
    + vm_compute in Hthrow. discriminate Hthrow.
  - unfold ScalaTex.validateModuleName in Hthrow. rewrite Ht in Hthrow.
    discriminate Hthrow.
Qed.

(** ** Ports and hosts *)

Lemma validatePort_range (v : value) (p : Z) :
  Coleslaw.validatePort v = Ok p -> (1 <= p <= 65535)%Z.
Proof.
  unfold Coleslaw.validatePort. destruct (parseInt v) as [q|]; [|discriminate].
  destruct (Z.ltb_spec q 1), (Z.gtb_spec q 65535); cbn [orb];
    try discriminate.
  intros [= <-]. lia.
Qed.

(** X7. Whatever the input, [validatePort] either returns an integer
    between 1 and 65535, the one [parseInt] reads from the input, or throws
    its one error; the functions of Coleslaw and Franklin agree on every
    input. *)
Theorem validatePort_sound (v : value) :
  Franklin.validatePort v = Coleslaw.validatePort v /\
  match Coleslaw.validatePort v with
  | Ok p => (1 <= p <= 65535)%Z /\ parseInt v = Some p
  | Throw e => e = port_error
  end.
Proof.
  split; [reflexivity|]. unfold Coleslaw.validatePort.
  destruct (parseInt v) as [p|]; [|reflexivity].
  destruct (Z.ltb_spec p 1), (Z.gtb_spec p 65535); cbn [orb];
    try reflexivity.
  split; [lia | reflexivity].
Qed.

(** X8. A port that [validatePort] returned is accepted again and
    returned unchanged, as a number and as the decimal text that the tools
    put into the command (which is made of digits only). *)
Theorem validatePort_idempotent (v : value) (p : Z) :
  Coleslaw.validatePort v = Ok p ->
  Coleslaw.validatePort (VNum p) = Ok p /\
  Coleslaw.validatePort (VStr (num_to_string p)) = Ok p /\
  Franklin.validatePort (VStr (num_to_string p)) = Ok p /\
  test_all1 is_digit (num_to_string p) = true.
Proof.
  intros Hok. unfold Coleslaw.validatePort in Hok.
  destruct (parseInt v) as [q|]; [|discriminate].
  destruct (Z.ltb_spec q 1), (Z.gtb_spec q 65535); cbn [orb] in Hok;
    try discriminate.
  injection Hok as ->.
  assert (Hrange : ((1 <=? p)%Z && (p <=? 65535)%Z) = true).
  { apply andb_true_intro; split; apply Z.leb_le; lia. }
  destruct (validatePort_of_parseInt _ p (parseInt_number p)) as [Hn _].
  pose proof (parseInt_numeral p [] [] eq_refl eq_refl) as Hparse.
  cbn [app] in Hparse. rewrite app_nil_r in Hparse.
  destruct (validatePort_of_parseInt _ p Hparse) as [Hs Hs'].
  rewrite Hrange in Hn, Hs, Hs'.
  split; [exact Hn|]. split; [exact Hs|]. split; [exact Hs'|].
  assert (Hall : forall f n acc,
             forallb is_digit acc = true ->
             forallb is_digit (digits_aux f n acc) = true).
  { induction f as [|f IH]; intros n acc Hacc; [exact Hacc|].
    rewrite digits_aux_S.
    assert (Hd : forallb is_digit ((48 + n mod 10) :: acc) = true).
    { cbn [forallb]. rewrite Hacc, andb_true_r.
      apply digit_char, N.mod_lt. discriminate. }
    destruct (n / 10 =? 0); [exact Hd | apply IH, Hd]. }
  destruct p as [|p|p]; try lia.
  cbn [num_to_string]. apply forallb_test_all1.
  - unfold digits.
    destruct (digits_aux_head (N.to_nat (N.size (Z.to_N (Z.pos p))))
                (Z.to_N (Z.pos p)) []) as (d & tl & -> & _).
    discriminate.
  - apply Hall. reflexivity.
Qed.

Lemma validatePort_idempotent_witness :
  Coleslaw.validatePort (VStr (lit " 8080 tcp")) = Ok 8080%Z /\
  Coleslaw.validatePort (VStr (lit "8080")) = Ok 8080%Z.
Proof.
  split; [reflexivity|].
  destruct (validatePort_idempotent (VStr (lit " 8080 tcp")) 8080 eq_refl)
    as (_ & Hs & _).
  exact Hs.
Defined.

Lemma sanitizeHost_output (v : value) (h : list N) :
  Franklin.sanitizeHost v = Ok h -> forallb host_char h = true.
Proof.
  intros Hok. destruct v as [| |b|n|s|]; try (injection Hok as <-; reflexivity).
  unfold Franklin.sanitizeHost in Hok.
  destruct (test_all1 host_char s) eqn:Hs; [|discriminate].
  injection Hok as <-. apply test_all1_forallb, Hs.
Qed.

(** X9. A host that [sanitizeHost] returns is made of letters, digits,
    dot, underscore, dash and colon only; it holds none of the characters
    the Julia sanitizer rejects, in particular no double quote, although
    [sanitizeHost] has no reject list of its own. *)
Theorem sanitized_host_is_safe (v : value) (h : list N) :
  Franklin.sanitizeHost v = Ok h ->
  forallb host_char h = true /\
  test_any Franklin.julia_special h = false /\
  ~ In 34 h.
Proof.
  intros Hok. pose proof (sanitizeHost_output v h Hok) as Hall.
  split; [exact Hall|]. split.
  - apply (forallb_existsb_false _ _ h julia_special_not_host Hall).
  - apply (forallb_not_In host_char); [reflexivity | exact Hall].
Qed.

Lemma sanitized_host_is_safe_witness :
  Franklin.sanitizeHost (VStr (lit "127.0.0.1")) = Ok (lit "127.0.0.1") /\
  ~ In 34 (lit "127.0.0.1").
Proof.
  split; [reflexivity|].
  apply (sanitized_host_is_safe (VStr (lit "127.0.0.1")) (lit "127.0.0.1")).
  reflexivity.
Defined.

(** * Further properties of the tools *)

(** Rewriting a validation at the head of a computation. *)
Ltac lift_step :=
  match goal with
  | |- context [bind (lift ?r) ?k ?st] =>
      let a := fresh "a" in
      let e := fresh "e" in
      destruct r as [a | e];
      [ change (bind (lift (Ok a)) k st) with (k a st); cbv beta
      | change (bind (lift (Throw e)) k st) with (@Throws Result e, st) ]
  end.

Section ToolEffects.
Context {World : Type} `{Runtime World}.

Lemma try_catch_failure_state (m : M World Result) (st : state World) :
  snd (try_catch m (fun e => ret (failure e)) st) = snd (m st).
Proof. unfold try_catch, ret. destruct (m st) as [[r | e |] st']; reflexivity. Qed.

(** What a runner does to the state: the flag is kept, and the request for
    the resolved directory is logged unless resolving it threw. *)
Lemma runner_log {A} (mk : list N -> CommandRequest) (f : CommandOutput -> A)
  (dir : option (list N)) (st : state World) :
  let st' := snd (bind (cwd_or_current dir)
                    (fun d => bind (output (mk d)) (fun o => ret (f o))) st) in
  connected st' = connected st /\
  (spawned st' = spawned st \/ exists d, spawned st' = spawned st ++ [mk d]).
Proof.
  cbv zeta.
  assert (Hdir : exists r, cwd_or_current dir st = (r, st)).
  { destruct dir as [[|c d]|]; cbn [cwd_or_current]; unfold ret, get_cwd, lift;
      try (eexists; reflexivity);
      destruct (deno_cwd (world st)); eexists; reflexivity. }
  destruct Hdir as [r Hr]. unfold bind. rewrite Hr. destruct r as [d | e |].
  - unfold output, ret.
    destruct (command_output (mk d) (world st)) as [[o | e |] w]; cbn;
      (split; [reflexivity | right; exists d; reflexivity]).
  - split; [reflexivity | left; reflexivity].
  - split; [reflexivity | left; reflexivity].
Qed.

Lemma runner_once {A} (bin : list N) (mk : list N -> CommandRequest)
  (f : CommandOutput -> A) (dir : option (list N)) (st : state World) :
  (forall d, exe (mk d) = bin) ->
  spawns_at_most_once bin st
    (snd (bind (cwd_or_current dir)
            (fun d => bind (output (mk d)) (fun o => ret (f o))) st)).
Proof.
  intros Hexe. destruct (runner_log mk f dir st) as [Hflag [Hlog | [d Hlog]]].
  - split; [exact Hflag | left; exact Hlog].
  - split; [exact Hflag | right]. exists (mk d). split; [exact Hlog | apply Hexe].
Qed.

Lemma output_once {A} (bin : list N) (req : CommandRequest)
  (f : CommandOutput -> A) (st : state World) :
  exe req = bin ->
  spawns_at_most_once bin st
    (snd (bind (output req) (fun o => ret (f o)) st)).
Proof.
  intros <-. unfold bind, output, ret.
  destruct (command_output req (world st)) as [[o | e |] w]; cbn;
    (split; [reflexivity | right; exists req; split; reflexivity]).
Qed.

Lemma nothing_spawned (bin : list N) (st : state World) :
  spawns_at_most_once bin st st.
Proof. split; [reflexivity | left; reflexivity]. Qed.

(** X10. An operation of a tool never touches the flag [connected] and
    hands at most one command to the runtime, always for the binary of
    its adapter: sbcl for Coleslaw, julia for Franklin, mill (never sbt)
    for ScalaTex. *)
Theorem tools_spawn_at_most_once (t : Tool World)
  (params : gmap string value) (st : state World) :
  (In t Coleslaw.tools ->
   spawns_at_most_once Coleslaw.sblPath st (snd (execute t params st))) /\
  (In t Franklin.tools ->
   spawns_at_most_once Franklin.juliaPath st (snd (execute t params st))) /\
  (In t ScalaTex.tools ->
   spawns_at_most_once ScalaTex.millPath st (snd (execute t params st))).
Proof.
  split; [|split]; intros Ht.
  - unfold Coleslaw.tools in Ht. in_cases Ht; subst t; cbn [execute];
      unfold Coleslaw.coleslaw_init, Coleslaw.coleslaw_build,
        Coleslaw.coleslaw_preview, Coleslaw.coleslaw_new_post,
        Coleslaw.coleslaw_version, Coleslaw.runColeslaw;
      rewrite ?try_catch_failure_state; cbv zeta;
      repeat lift_step;
      first [ apply nothing_spawned
            | apply runner_once; reflexivity
            | apply output_once; reflexivity ].
  - unfold Franklin.tools in Ht. in_cases Ht; subst t; cbn [execute];
      unfold Franklin.franklin_newsite, Franklin.franklin_serve,
        Franklin.franklin_optimize, Franklin.franklin_publish,
        Franklin.franklin_version, Franklin.runJulia;
      rewrite ?try_catch_failure_state; cbv zeta;
      repeat lift_step;
      first [ apply nothing_spawned
            | apply runner_once; reflexivity
            | apply output_once; reflexivity ].
  - unfold ScalaTex.tools in Ht. in_cases Ht; subst t; cbn [execute];
      unfold ScalaTex.scalatex_compile, ScalaTex.scalatex_run,
        ScalaTex.scalatex_watch, ScalaTex.scalatex_clean,
        ScalaTex.scalatex_version, ScalaTex.runCommand;
      rewrite ?try_catch_failure_state; cbv zeta;
      repeat lift_step;
      first [ apply nothing_spawned
            | apply runner_once; reflexivity
            | apply output_once; reflexivity ].
Qed.
End ToolEffects.

Lemma tools_spawn_at_most_once_witness :
  spawns_at_most_once Franklin.juliaPath (initial tt)
    (snd (@Franklin.franklin_publish unit Worlds.all_good ∅ (initial tt))).
Proof.
  apply (proj1 (proj2
    (@tools_spawn_at_most_once unit Worlds.all_good
       {| name := "franklin_publish"; properties := [("path"%string, TString)];
          required := [];
          execute := @Franklin.franklin_publish unit Worlds.all_good |}
       ∅ (initial tt)))).
  right; right; right; left; reflexivity.
Defined.

Section ToolParameters.
Context {World : Type} `{Runtime World}.

(** X11. An operation reads the parameters its tool declares and no
    other: two parameter objects that agree on the declared properties
    give the same outcome and the same state, so an undeclared property is
    never looked at (the version tools look at none). *)
Theorem tools_read_declared_parameters (t : Tool World)
  (params params' : gmap string value) (st : state World) :
  In t all_tools ->
  (forall k, In k (map fst (properties t)) -> params !! k = params' !! k) ->
  execute t params st = execute t params' st.
Proof.
  intros Ht Hsame.
  assert (Hparam : forall k, In k (map fst (properties t)) ->
                             param params k = param params' k).
  { intros k Hk. unfold param. rewrite (Hsame k Hk). reflexivity. }
  clear Hsame.
  unfold all_tools, Coleslaw.tools, Franklin.tools, ScalaTex.tools in Ht.
  cbn [app] in Ht.
  in_cases Ht; subst t; cbn [execute properties map fst In] in *;
    unfold Coleslaw.coleslaw_init, Coleslaw.coleslaw_build,
      Coleslaw.coleslaw_preview, Coleslaw.coleslaw_new_post,
      Coleslaw.coleslaw_version, Franklin.franklin_newsite,
      Franklin.franklin_serve, Franklin.franklin_optimize,
      Franklin.franklin_publish, Franklin.franklin_version,
      ScalaTex.scalatex_compile, ScalaTex.scalatex_run,
      ScalaTex.scalatex_watch, ScalaTex.scalatex_clean,
      ScalaTex.scalatex_version;
    repeat match goal with
           | |- context [param params ?k] =>
               rewrite (Hparam k) by tauto
           end;
    reflexivity.
Qed.

(** X12. The path is validated first: when the path of a call is
    rejected, every tool that declares a path returns the failure record
    with the message of the path error, whatever the other parameters are,
    and the state is left as it was. *)
Theorem rejected_path_is_reported_first (t : Tool World)
  (params : gmap string value) (e : exn) (st : state World) :
  In ("path"%string, TString) (properties t) ->
  (In t Coleslaw.tools ->
   Coleslaw.validatePath (param params "path") = Throw e ->
   execute t params st = (Returns (failure e), st)) /\
  (In t Franklin.tools ->
   Franklin.validatePath (param params "path") = Throw e ->
   execute t params st = (Returns (failure e), st)) /\
  (In t ScalaTex.tools ->
   ScalaTex.validatePath (param params "path") = Throw e ->
   execute t params st = (Returns (failure e), st)).
Proof.
  intros Hpath. split; [|split]; intros Ht Hthrow.
  - unfold Coleslaw.tools in Ht. in_cases Ht; subst t;
      cbn [properties In] in Hpath; try tauto; cbn [execute];
      unfold Coleslaw.coleslaw_init, Coleslaw.coleslaw_build,
        Coleslaw.coleslaw_preview, Coleslaw.coleslaw_new_post;
      rewrite Hthrow; reflexivity.
  - unfold Franklin.tools in Ht. in_cases Ht; subst t;
      cbn [properties In] in Hpath; try tauto; cbn [execute];
      unfold Franklin.franklin_newsite, Franklin.franklin_serve,
        Franklin.franklin_optimize, Franklin.franklin_publish;
      rewrite Hthrow; reflexivity.
  - unfold ScalaTex.tools in Ht. in_cases Ht; subst t;
      cbn [properties In] in Hpath; try tauto; cbn [execute];
      unfold ScalaTex.scalatex_compile, ScalaTex.scalatex_run,
        ScalaTex.scalatex_watch, ScalaTex.scalatex_clean;
      rewrite Hthrow; reflexivity.
Qed.

(** X13. [coleslaw_preview] replaces a falsy port (missing, null, false,
    the number 0, the empty string) by 8080 before validating it: the call
    behaves as the one where the port is set to 8080. In particular the
    number 0 is not rejected as out of range. *)
Theorem coleslaw_preview_default_port (params : gmap string value)
  (st : state World) :
  truthy (param params "port") = false ->
  Coleslaw.coleslaw_preview params st
  = Coleslaw.coleslaw_preview (<["port"%string := VNum 8080]> params) st.
Proof.
  intros Hfalsy. unfold Coleslaw.coleslaw_preview.
  assert (Hpath : param (<["port"%string := VNum 8080]> params) "path"
                  = param params "path").
  { unfold param. rewrite lookup_insert_ne by discriminate. reflexivity. }
  assert (Hport : param (<["port"%string := VNum 8080]> params) "port"
                  = VNum 8080).
  { unfold param. rewrite lookup_insert_eq. reflexivity. }
  rewrite Hpath, Hport, Hfalsy. reflexivity.
Qed.

(** X14. [franklin_serve] skips a falsy port and a falsy host without
    validating them: the call behaves as the one where the property is
    absent, so the number 0 and the empty string are never an error
    there. *)
Theorem franklin_serve_skips_falsy (params : gmap string value)
  (st : state World) :
  (truthy (param params "port") = false ->
   Franklin.franklin_serve params st
   = Franklin.franklin_serve (delete "port"%string params) st) /\
  (truthy (param params "host") = false ->
   Franklin.franklin_serve params st
   = Franklin.franklin_serve (delete "host"%string params) st).
Proof.
  split; intros Hfalsy; unfold Franklin.franklin_serve.
  - assert (Hpath : param (delete "port"%string params) "path"
                    = param params "path")
      by (unfold param; rewrite lookup_delete_ne by discriminate; reflexivity).
    assert (Hhost : param (delete "port"%string params) "host"
                    = param params "host")
      by (unfold param; rewrite lookup_delete_ne by discriminate; reflexivity).
    assert (Hport : param (delete "port"%string params) "port" = VUndefined)
      by (unfold param; rewrite lookup_delete_eq; reflexivity).
    rewrite Hpath, Hhost, Hport, Hfalsy. reflexivity.
  - assert (Hpath : param (delete "host"%string params) "path"
                    = param params "path")
      by (unfold param; rewrite lookup_delete_ne by discriminate; reflexivity).
    assert (Hport : param (delete "host"%string params) "port"
                    = param params "port")
      by (unfold param; rewrite lookup_delete_ne by discriminate; reflexivity).
    assert (Hhost : param (delete "host"%string params) "host" = VUndefined)
      by (unfold param; rewrite lookup_delete_eq; reflexivity).
    rewrite Hpath, Hport, Hhost, Hfalsy. reflexivity.
Qed.
End ToolParameters.

(** * Further properties of the connection *)

(** Case analysis on the innermost scrutinee of the goal. *)
Ltac destruct_scrutinee :=
  match goal with
  | |- context [match ?x with _ => _ end] =>
      lazymatch x with
      | context [match _ with _ => _ end] => fail
      | _ => destruct x eqn:?
      end
  end.

Section Connection.
Context {World : Type} `{Runtime World}.

(** X15. [connect] never throws, in any adapter and whatever the runtime
    does; and when it returns, the value it returns is the value of the
    flag that [isConnected] reads afterwards. While the probe of Coleslaw
    or Franklin does not exit, the flag keeps its value; in ScalaTex the
    flag may already have been cleared by a failed mill probe while the
    sbt probe is pending. *)
Theorem connect_agrees_with_flag (st : state World) :
  match Coleslaw.connect st with
  | (Returns b, st') => Coleslaw.isConnected st' = b
  | (Throws _, _) => False
  | (Pending, st') => Coleslaw.isConnected st' = Coleslaw.isConnected st
  end /\
  match Franklin.connect st with
  | (Returns b, st') => Franklin.isConnected st' = b
  | (Throws _, _) => False
  | (Pending, st') => Franklin.isConnected st' = Franklin.isConnected st
  end /\
  match ScalaTex.connect st with
  | (Returns b, st') => ScalaTex.isConnected st' = b
  | (Throws _, _) => False
  | (Pending, st') =>
      ScalaTex.isConnected st' = ScalaTex.isConnected st \/
      ScalaTex.isConnected st' = false
  end.
Proof.
  split; [|split].
  - unfold Coleslaw.connect, Coleslaw.isConnected, try_catch, bind, output,
      set_connected, get_connected, ret.
    repeat destruct_scrutinee; reflexivity.
  - unfold Franklin.connect, Franklin.isConnected, try_catch, bind, output,
      set_connected, get_connected, ret.
    repeat destruct_scrutinee; reflexivity.
  - unfold ScalaTex.connect, ScalaTex.runCommand, ScalaTex.runSbt,
      ScalaTex.isConnected, try_catch, bind, output, cwd_or_current, get_cwd,
      lift, set_connected, get_connected, ret.
    repeat (destruct_scrutinee; cbn [success result_of_output negb connected
                                       world spawned fst snd]);
      try reflexivity; try (left; reflexivity); right;
      try reflexivity;
      match goal with
      | Hb : negb ?x = true |- _ => destruct x; [discriminate Hb | reflexivity]
      end.
Qed.

(** X16. In ScalaTex, sbt is probed only after mill was spawned and
    exited without success. When the spawn of mill is rejected, [connect]
    returns false after that single request, whether or not sbt is
    installed; and when the current directory cannot be read it returns
    false without any request. *)
Theorem scalatex_connect_missing_mill (st : state World) :
  (forall d e w,
     deno_cwd (world st) = Ok d ->
     command_output {| exe := ScalaTex.millPath; args := [lit "--version"];
                       cwd := Some d |} (world st) = (SpawnFails e, w) ->
     ScalaTex.connect st
     = (Returns false,
        {| world := w; connected := false;
           spawned := spawned st ++
                      [ {| exe := ScalaTex.millPath; args := [lit "--version"];
                           cwd := Some d |} ] |})) /\
  (forall e,
     deno_cwd (world st) = Throw e ->
     ScalaTex.connect st
     = (Returns false,
        {| world := world st; connected := false; spawned := spawned st |})).
Proof.
  split.
  - intros d e w Hcwd Hmill.
    unfold ScalaTex.connect, ScalaTex.runCommand, try_catch, bind, output,
      cwd_or_current, get_cwd, lift.
    rewrite Hcwd, Hmill. reflexivity.
  - intros e Hcwd.
    unfold ScalaTex.connect, ScalaTex.runCommand, try_catch, bind, output,
      cwd_or_current, get_cwd, lift.
    rewrite Hcwd. reflexivity.
Qed.
End Connection.

Lemma scalatex_connect_missing_mill_witness :
  @ScalaTex.connect unit Worlds.missing_binary (initial tt)
  = (Returns false,
     {| world := tt; connected := false;
        spawned := [ {| exe := ScalaTex.millPath; args := [lit "--version"];
                        cwd := Some (lit "/srv/site") |} ] |}).
Proof.
  apply (proj1 (@scalatex_connect_missing_mill unit Worlds.missing_binary
                  (initial tt))
           (lit "/srv/site") Worlds.not_found tt);
    reflexivity.
Defined.

(** * What reaches the spawned process *)

(** The log after a runner call: nothing new, or the request built for
    the resolved directory. *)
Ltac runner_cases d Hlog :=
  match goal with
  | |- context [snd (bind (cwd_or_current ?dir)
                       (fun x => bind (output (@?mk x))
                                   (fun o => ret (@?f o))) ?st)] =>
      let Hr := fresh "Hr" in
      pose proof (runner_log mk f dir st) as Hr; cbv zeta beta in Hr;
      destruct Hr as [_ [Hlog | [d Hlog]]]; rewrite Hlog; clear Hlog
  end.

Section Commands.
Context {World : Type} `{Runtime World}.

(** X17. Whatever the parameters, the only text of the caller that
    reaches sbcl through [coleslaw_init], [coleslaw_build] or
    [coleslaw_new_post] stands between the two double quotes of the
    expression and is made of safe characters (so it holds no quote and no
    backslash); through [coleslaw_preview] it is the decimal numeral of a
    port between 1 and 65535. *)
Theorem coleslaw_commands_are_quoted (params : gmap string value)
  (st : state World) :
  (forall tool head,
     In (tool, head)
        [ (Coleslaw.coleslaw_init, lit "(coleslaw:setup ");
          (Coleslaw.coleslaw_build, lit "(coleslaw:main ");
          (Coleslaw.coleslaw_new_post, lit "(coleslaw:new-post ") ] ->
     spawned (snd (tool params st)) = spawned st \/
     exists d p,
       forallb safe_char p = true /\
       spawned (snd (tool params st))
       = spawned st ++
         [ {| exe := Coleslaw.sblPath;
              args := [lit "--eval"; lit "(ql:quickload :coleslaw)";
                       lit "--eval"; head ++ dq ++ p ++ dq ++ lit ")";
                       lit "--quit"];
              cwd := Some d |} ]) /\
  (spawned (snd (Coleslaw.coleslaw_preview params st)) = spawned st \/
   exists d port,
     (1 <= port <= 65535)%Z /\
     spawned (snd (Coleslaw.coleslaw_preview params st))
     = spawned st ++
       [ {| exe := Coleslaw.sblPath;
            args := [lit "--eval"; lit "(ql:quickload :coleslaw)";
                     lit "--eval";
                     lit "(coleslaw:preview :port " ++ num_to_string port
                       ++ lit ")";
                     lit "--quit"];
            cwd := Some d |} ]).
Proof.
  split.
  - intros tool head Htool. in_cases Htool; injection Htool as <- <-;
      unfold Coleslaw.coleslaw_init, Coleslaw.coleslaw_build,
        Coleslaw.coleslaw_new_post, Coleslaw.runColeslaw;
      rewrite try_catch_failure_state.
    + destruct (Coleslaw.validatePath (param params "path")) as [p | e] eqn:Hp;
        [|left; reflexivity].
      change (bind (lift (Ok p)) ?k st) with (k p st). cbv beta.
      runner_cases d Hlog; [left; reflexivity | right].
      exists d, p. split; [apply (coleslaw_validatePath_output _ _ Hp) | reflexivity].
    + destruct (Coleslaw.validatePath (param params "path")) as [p | e] eqn:Hp;
        [|left; reflexivity].
      change (bind (lift (Ok p)) ?k st) with (k p st). cbv beta.
      runner_cases d Hlog; [left; reflexivity | right].
      exists d, p. split; [apply (coleslaw_validatePath_output _ _ Hp) | reflexivity].
    + destruct (Coleslaw.validatePath (param params "path")) as [p | e] eqn:Hp;
        [|left; reflexivity].
      change (bind (lift (Ok p)) ?k st) with (k p st). cbv beta.
      destruct (Coleslaw.sanitizeLispString (param params "title"))
        as [title | e] eqn:Ht; [|left; reflexivity].
      change (bind (lift (Ok title)) ?k st) with (k title st). cbv beta.
      runner_cases d Hlog; [left; reflexivity | right].
      exists d, title.
      split; [apply (sanitizeLispString_output _ _ Ht) | reflexivity].
  - unfold Coleslaw.coleslaw_preview, Coleslaw.runColeslaw.
    rewrite try_catch_failure_state. cbv zeta.
    destruct (Coleslaw.validatePath (param params "path")) as [p | e] eqn:Hp;
      [|left; reflexivity].
    change (bind (lift (Ok p)) ?k st) with (k p st). cbv beta.
    destruct (Coleslaw.validatePort _) as [port | e] eqn:Hport;
      [|left; reflexivity].
    change (bind (lift (Ok port)) ?k st) with (k port st). cbv beta.
    runner_cases d Hlog; [left; reflexivity | right].
    exists d, port. split; [apply (validatePort_range _ _ Hport) | reflexivity].
Qed.

(** Reducing a validation whose result is known. *)
Ltac lift_reduce :=
  cbn [rbind];
  match goal with
  | |- context [bind (lift (Ok ?a)) ?k ?st] =>
      change (bind (lift (Ok a)) k st) with (k a st); cbv beta
  | |- context [bind (lift (Throw ?e)) ?k ?st] =>
      change (bind (lift (Throw e)) k st) with (@Throws Result e, st)
  end.

(** X18. Whatever the parameters, the Julia source that [franklin_newsite]
    and [franklin_serve] hand to julia is the fixed text of the tool with
    validated pieces in it: a path and a template name made of safe
    characters between double quotes, the decimal numeral of a port
    between 1 and 65535, a host made of host characters between double
    quotes. *)
Theorem franklin_sources_are_validated (params : gmap string value)
  (st : state World) :
  (spawned (snd (Franklin.franklin_newsite params st)) = spawned st \/
   exists d p tmpl,
     forallb safe_char p = true /\
     (tmpl = [] \/
      exists t, forallb safe_char t = true /\
                tmpl = lit ", template=" ++ dq ++ t ++ dq) /\
     spawned (snd (Franklin.franklin_newsite params st))
     = spawned st ++
       [ {| exe := Franklin.juliaPath;
            args := [lit "-e";
                     lit "using Franklin; newsite(" ++ dq ++ p ++ dq ++ tmpl
                       ++ lit ")"];
            cwd := Some d |} ]) /\
  (spawned (snd (Franklin.franklin_serve params st)) = spawned st \/
   exists d ports hosts,
     (ports = [] \/
      exists port, (1 <= port <= 65535)%Z /\
                   ports = [lit "port=" ++ num_to_string port]) /\
     (hosts = [] \/
      exists h, forallb host_char h = true /\
                hosts = [lit "host=" ++ dq ++ h ++ dq]) /\
     spawned (snd (Franklin.franklin_serve params st))
     = spawned st ++
       [ {| exe := Franklin.juliaPath;
            args := [lit "-e";
                     lit "using Franklin; serve("
                       ++ Franklin.argsStr (ports ++ hosts) ++ lit ")"];
            cwd := Some d |} ]).
Proof.
  split.
  - unfold Franklin.franklin_newsite, Franklin.runJulia.
    rewrite try_catch_failure_state. cbv zeta.
    destruct (Franklin.validatePath (param params "path")) as [p | e] eqn:Hp;
      lift_reduce; [|left; reflexivity].
    pose proof (franklin_validatePath_output _ _ Hp) as Hsafe.
    destruct (truthy (param params "template")).
    + destruct (Franklin.sanitizeJuliaString (param params "template"))
        as [t | e] eqn:Ht; lift_reduce; [|left; reflexivity].
      runner_cases d Hlog; [left; reflexivity | right].
      exists d, p, (lit ", template=" ++ dq ++ t ++ dq).
      split; [exact Hsafe|]. split; [|reflexivity].
      right. exists t. split; [apply (sanitizeJuliaString_output _ _ Ht) | reflexivity].
    + lift_reduce. runner_cases d Hlog; [left; reflexivity | right].
      exists d, p, []. split; [exact Hsafe|]. split; [left|]; reflexivity.
  - unfold Franklin.franklin_serve, Franklin.runJulia.
    rewrite try_catch_failure_state. cbv zeta.
    destruct (Franklin.validatePath (param params "path")) as [p | e] eqn:Hp;
      lift_reduce; [|left; reflexivity].
    destruct (truthy (param params "port")).
    + destruct (Franklin.validatePort (param params "port"))
        as [port | e] eqn:Hport; lift_reduce; [|left; reflexivity].
      pose proof (validatePort_range _ _ Hport) as Hrange.
      destruct (truthy (param params "host")).
      * destruct (Franklin.sanitizeHost (param params "host"))
          as [h | e] eqn:Hh; lift_reduce; [|left; reflexivity].
        runner_cases d Hlog; [left; reflexivity | right].
        exists d, [lit "port=" ++ num_to_string port],
          [lit "host=" ++ dq ++ h ++ dq].
        split; [right; exists port; split; [exact Hrange | reflexivity]|].
        split; [|reflexivity].
        right; exists h; split; [apply (sanitizeHost_output _ _ Hh) | reflexivity].
      * lift_reduce. runner_cases d Hlog; [left; reflexivity | right].
        exists d, [lit "port=" ++ num_to_string port], [].
        split; [right; exists port; split; [exact Hrange | reflexivity]|].
        split; [left|]; reflexivity.
    + lift_reduce. destruct (truthy (param params "host")).
      * destruct (Franklin.sanitizeHost (param params "host"))
          as [h | e] eqn:Hh; lift_reduce; [|left; reflexivity].
        runner_cases d Hlog; [left; reflexivity | right].
        exists d, [], [lit "host=" ++ dq ++ h ++ dq].
        split; [left; reflexivity|]. split; [|reflexivity].
        right; exists h; split; [apply (sanitizeHost_output _ _ Hh) | reflexivity].
      * lift_reduce. runner_cases d Hlog; [left; reflexivity | right].
        exists d, [], []. split; [left; reflexivity|].
        split; [left|]; reflexivity.
Qed.
End Commands.

Section FixedCommands.
Context {World : Type} `{Runtime World}.


(** X20. Whatever the parameters, the arguments that the ScalaTex tools
    hand to mill are a fixed word ([clean], [--watch], [--version]) or a
    module name that passed the identifier test, followed by [.compile]
    or [.run]; the path only selects the directory. *)
Theorem scalatex_arguments_are_identifiers (params : gmap string value)
  (st : state World) :
  forall tool (shape : list N -> list (list N)),
    In (tool, shape)
       [ (ScalaTex.scalatex_compile, fun m => [m ++ lit ".compile"]);
         (ScalaTex.scalatex_run, fun m => [m ++ lit ".run"]);
         (ScalaTex.scalatex_watch, fun m => [lit "--watch"; m ++ lit ".compile"]);
         (ScalaTex.scalatex_clean, fun _ => [lit "clean"]);
         (ScalaTex.scalatex_version, fun _ => [lit "--version"]) ] ->
    spawned (snd (tool params st)) = spawned st \/
    exists d m,
      test_identifier m = true /\
      spawned (snd (tool params st))
      = spawned st ++
        [ {| exe := ScalaTex.millPath; args := shape m; cwd := Some d |} ].
Proof.
  intros tool shape Htool. in_cases Htool; injection Htool as <- <-;
    unfold ScalaTex.scalatex_compile, ScalaTex.scalatex_run,
      ScalaTex.scalatex_watch, ScalaTex.scalatex_clean,
      ScalaTex.scalatex_version, ScalaTex.runCommand;
    rewrite ?try_catch_failure_state.
  1-3: destruct (ScalaTex.validatePath (param params "path")) as [p | e];
    [|left; reflexivity];
    change (bind (lift (Ok p)) ?k st) with (k p st); cbv beta;
    destruct (ScalaTex.validateModuleName (param params "module"))
      as [m | e] eqn:Hm; [|left; reflexivity];
    change (bind (lift (Ok m)) ?k st) with (k m st); cbv beta;
    (runner_cases d Hlog; [left; reflexivity | right]);
    exists d, m; (split; [|reflexivity]);
    apply (validateModuleName_output _ _ Hm).
  - destruct (ScalaTex.validatePath (param params "path")) as [p | e];
      [|left; reflexivity].
    change (bind (lift (Ok p)) ?k st) with (k p st). cbv beta.
    runner_cases d Hlog; [left; reflexivity | right].
    exists d, (lit "docs"). split; reflexivity.
  - runner_cases d Hlog; [left; reflexivity | right].
    exists d, (lit "docs"). split; reflexivity.
Qed.

(** X21. When the version tool of Coleslaw or Franklin returns, the
    version probe of the call exited, and the result is the success and
    the two texts of that process in a record without [code]; when the
    version tool of ScalaTex returns, mill exited in the current
    directory and the result has, besides, the exit status of that process
    as [code]. *)
Theorem version_results (params : gmap string value) (st st' : state World)
  (r : Result) :
  (Coleslaw.coleslaw_version params st = (Returns r, st') ->
   exists o w,
     command_output {| exe := Coleslaw.sblPath; args := [lit "--version"];
                       cwd := None |} (world st) = (Exited o, w) /\
     r = {| success := out_success o; stdout := out_stdout o;
            stderr := out_stderr o; code := None |}) /\
  (Franklin.franklin_version params st = (Returns r, st') ->
   exists o w,
     command_output {| exe := Franklin.juliaPath; args := [lit "--version"];
                       cwd := None |} (world st) = (Exited o, w) /\
     r = {| success := out_success o; stdout := out_stdout o;
            stderr := out_stderr o; code := None |}) /\
  (ScalaTex.scalatex_version params st = (Returns r, st') ->
   exists d o w,
     deno_cwd (world st) = Ok d /\
     command_output {| exe := ScalaTex.millPath; args := [lit "--version"];
                       cwd := Some d |} (world st) = (Exited o, w) /\
     r = {| success := out_success o; stdout := out_stdout o;
            stderr := out_stderr o; code := Some (out_code o) |}).
Proof.
  split; [|split].
  - unfold Coleslaw.coleslaw_version, bind, output, ret.
    destruct (command_output _ (world st)) as [[o | e |] w] eqn:Hout;
      try discriminate.
    intros [= <- _]. exists o, w. split; reflexivity.
  - unfold Franklin.franklin_version, bind, output, ret.
    destruct (command_output _ (world st)) as [[o | e |] w] eqn:Hout;
      try discriminate.
    intros [= <- _]. exists o, w. split; reflexivity.
  - unfold ScalaTex.scalatex_version, ScalaTex.runCommand, bind, output, ret,
      cwd_or_current, get_cwd, lift.
    destruct (deno_cwd (world st)) as [d | e]; [|discriminate].
    destruct (command_output _ (world st)) as [[o | e |] w] eqn:Hout;
      try discriminate.
    intros [= <- _]. exists d, o, w.
    split; [reflexivity|]. split; [exact Hout | reflexivity].
Qed.

(** X22. The empty string is not treated as a missing value by the
    sanitizers: both reject it (it fails the allow list), and so does
    [sanitizeHost]; hence [coleslaw_new_post] called with an empty title
    returns a failure record and spawns nothing, while [validatePath]
    turns an empty path into the one-dot string. *)
Theorem empty_string_is_rejected (params : gmap string value)
  (st : state World) :
  params !! "title"%string = Some (VStr []) ->
  (exists e, Coleslaw.sanitizeLispString (VStr []) = Throw e) /\
  (exists e, Franklin.sanitizeJuliaString (VStr []) = Throw e) /\
  (exists e, Franklin.sanitizeHost (VStr []) = Throw e) /\
  Coleslaw.validatePath (VStr []) = Ok (lit ".") /\
  Franklin.validatePath (VStr []) = Ok (lit ".") /\
  exists e, Coleslaw.coleslaw_new_post params st = (Returns (failure e), st).
Proof.
  intros Htitle. apply param_lookup in Htitle.
  repeat (split; [first [reflexivity | eexists; reflexivity]|]).
  unfold Coleslaw.coleslaw_new_post. rewrite Htitle.
  destruct (Coleslaw.validatePath (param params "path")) as [p | e];
    [|eexists; reflexivity].
  rewrite try_lift_ok. eexists; reflexivity.
Qed.
End FixedCommands.

(** * Instances of the properties above *)

Lemma sanitizers_accept_safe_text_witness :
  test_all1 safe_char (lit "My first post") = true /\
  Coleslaw.sanitizeLispString (VStr (lit "My first post"))
  = Ok (lit "My first post").
Proof.
  split; [reflexivity|].
  apply (proj1 (sanitizers_accept_safe_text (lit "My first post")
                  (lit "My first post"))).
  split; reflexivity.
Defined.

Lemma scalatex_validatePath_spec_witness :
  lit "docs/my site" <> [] /\
  Coleslaw.validatePath (VStr (lit "docs/my site")) = Ok (lit "docs/my site") /\
  ScalaTex.validatePath (VStr (lit "docs/my site")) = Ok (Some (lit "docs/my site")).
Proof.
  split; [discriminate|]. split; [reflexivity|].
  apply (proj2 (proj2 scalatex_validatePath_spec)
           (lit "docs/my site") (lit "docs/my site"));
    [discriminate | left; reflexivity].
Defined.

Lemma tools_read_declared_parameters_witness :
  @Coleslaw.coleslaw_init unit Worlds.all_good
    {[ "path"%string := VStr (lit "site"); "verbose"%string := VBool true ]}
    (initial tt)
  = @Coleslaw.coleslaw_init unit Worlds.all_good
      {[ "path"%string := VStr (lit "site") ]} (initial tt).
Proof.
  apply (@tools_read_declared_parameters unit Worlds.all_good
           {| name := "coleslaw_init"; properties := [("path"%string, TString)];
              required := [];
              execute := @Coleslaw.coleslaw_init unit Worlds.all_good |}).
  - left; reflexivity.
  - intros k Hk. cbn in Hk. destruct Hk as [<- | []]. reflexivity.
Defined.

Lemma rejected_path_is_reported_first_witness :
  @Franklin.franklin_serve unit Worlds.all_good
    {[ "path"%string := VStr (lit "../etc"); "port"%string := VNum 99999 ]}
    (initial tt)
  = (Returns (failure (Error (lit "Path traversal not allowed"))), initial tt).
Proof.
  apply (proj1 (proj2
    (@rejected_path_is_reported_first unit Worlds.all_good
       {| name := "franklin_serve";
          properties := [("path"%string, TString); ("port"%string, TNumber);
                         ("host"%string, TString)];
          required := [];
          execute := @Franklin.franklin_serve unit Worlds.all_good |}
       {[ "path"%string := VStr (lit "../etc"); "port"%string := VNum 99999 ]}
       (Error (lit "Path traversal not allowed")) (initial tt)
       (or_introl eq_refl)))).
  - right; left; reflexivity.
  - reflexivity.
Defined.

Lemma coleslaw_preview_default_port_witness :
  @Coleslaw.coleslaw_preview unit Worlds.all_good
    {[ "port"%string := VNum 0 ]} (initial tt)
  = @Coleslaw.coleslaw_preview unit Worlds.all_good
      (<["port"%string := VNum 8080]> {[ "port"%string := VNum 0 ]})
      (initial tt).
Proof.
  apply (@coleslaw_preview_default_port unit Worlds.all_good
           {[ "port"%string := VNum 0 ]} (initial tt)).
  reflexivity.
Defined.

Lemma franklin_serve_skips_falsy_witness :
  @Franklin.franklin_serve unit Worlds.all_good
    {[ "port"%string := VNum 0 ]} (initial tt)
  = @Franklin.franklin_serve unit Worlds.all_good
      (delete "port"%string {[ "port"%string := VNum 0 ]}) (initial tt).
Proof.
  apply (proj1 (@franklin_serve_skips_falsy unit Worlds.all_good
                  {[ "port"%string := VNum 0 ]} (initial tt))).
  reflexivity.
Defined.

Lemma coleslaw_commands_are_quoted_witness :
  spawned (snd (@Coleslaw.coleslaw_build unit Worlds.all_good ∅ (initial tt)))
  = spawned (@initial unit tt) \/
  exists d p,
    forallb safe_char p = true /\
    spawned (snd (@Coleslaw.coleslaw_build unit Worlds.all_good ∅ (initial tt)))
    = spawned (@initial unit tt) ++
      [ {| exe := Coleslaw.sblPath;
           args := [lit "--eval"; lit "(ql:quickload :coleslaw)";
                    lit "--eval";
                    lit "(coleslaw:main " ++ dq ++ p ++ dq ++ lit ")";
                    lit "--quit"];
           cwd := Some d |} ].
Proof.
  apply (proj1 (@coleslaw_commands_are_quoted unit Worlds.all_good ∅ (initial tt))
           (@Coleslaw.coleslaw_build unit Worlds.all_good)
           (lit "(coleslaw:main ")).
  right; left; reflexivity.
Defined.

Lemma scalatex_arguments_are_identifiers_witness :
  spawned (snd (@ScalaTex.scalatex_run unit Worlds.all_good
                  {[ "module"%string := VStr (lit "site") ]} (initial tt)))
  = spawned (@initial unit tt) \/
  exists d m,
    test_identifier m = true /\
    spawned (snd (@ScalaTex.scalatex_run unit Worlds.all_good
                    {[ "module"%string := VStr (lit "site") ]} (initial tt)))
    = spawned (@initial unit tt) ++
      [ {| exe := ScalaTex.millPath; args := [m ++ lit ".run"];
           cwd := Some d |} ].
Proof.
  apply (@scalatex_arguments_are_identifiers unit Worlds.all_good
           {[ "module"%string := VStr (lit "site") ]} (initial tt)
           (@ScalaTex.scalatex_run unit Worlds.all_good)
           (fun m => [m ++ lit ".run"])).
  right; left; reflexivity.
Defined.

Lemma version_results_witness :
  exists o w,
    @command_output unit Worlds.all_good
      {| exe := Coleslaw.sblPath; args := [lit "--version"]; cwd := None |} tt
    = (Exited o, w) /\
    {| success := true; stdout := lit "done"; stderr := []; code := None |}
    = {| success := out_success o; stdout := out_stdout o;
         stderr := out_stderr o; code := None |}.
Proof.
  apply (proj1 (@version_results unit Worlds.all_good ∅ (initial tt)
                  (snd (@Coleslaw.coleslaw_version unit Worlds.all_good ∅
                          (initial tt)))
                  {| success := true; stdout := lit "done"; stderr := [];
                     code := None |})).
  reflexivity.
Defined.

Lemma empty_string_is_rejected_witness :
  exists e,
    @Coleslaw.coleslaw_new_post unit Worlds.all_good
      {[ "title"%string := VStr [] ]} (initial tt)
    = (Returns (failure e), initial tt).
Proof.
  apply (@empty_string_is_rejected unit Worlds.all_good
           {[ "title"%string := VStr [] ]} (initial tt)).
  reflexivity.
Defined.

(** * Calling a tool *)

Section Calls.
Context {World : Type} `{Runtime World}.

(** X23. A call of a tool whose body is inside a [try] (every tool but
    the three version tools) lets an exception out in one case only:
    called with undefined or null it throws the TypeError of the parameter
    pattern, before anything is validated or spawned; called with a
    parameter object it never throws, whatever the object holds and
    whatever the runtime does. *)
Theorem checked_tools_throw_only_without_object (t : Tool World)
  (arg : argument) (st : state World) :
  In t all_tools ->
  ~ In (name t) ["coleslaw_version"; "franklin_version"; "scalatex_version"]%string ->
  (forall params e, arg = ArgObject params -> fst (call t arg st) <> Throws e) /\
  (arg = ArgUndefined \/ arg = ArgNull ->
   exists e, call t arg st = (Throws e, st)).
Proof.
  intros Ht Hname. split.
  - intros params e ->.
    assert (Hcall : call t (ArgObject params) st = execute t params st).
    { unfold all_tools, Coleslaw.tools, Franklin.tools, ScalaTex.tools in Ht.
      cbn [app] in Ht.
      in_cases Ht; subst t; cbn [name] in Hname;
        try (exfalso; apply Hname; cbn [In]; tauto); reflexivity. }
    rewrite Hcall. apply checked_tools_never_throw; assumption.
  - intros Harg.
    unfold all_tools, Coleslaw.tools, Franklin.tools, ScalaTex.tools in Ht.
    cbn [app] in Ht.
    in_cases Ht; subst t; cbn [name] in Hname;
      try (exfalso; apply Hname; cbn [In]; tauto);
      destruct Harg as [-> | ->]; eexists; reflexivity.
Qed.
End Calls.

Lemma checked_tools_throw_only_without_object_witness :
  fst (@call unit Worlds.missing_binary
         {| name := "coleslaw_build"; properties := [("path"%string, TString)];
            required := [];
            execute := @Coleslaw.coleslaw_build unit Worlds.missing_binary |}
         (ArgObject ∅) (initial tt))
  <> Throws Worlds.not_found.
Proof.
  apply (proj1 (@checked_tools_throw_only_without_object unit
                  Worlds.missing_binary
                  {| name := "coleslaw_build";
                     properties := [("path"%string, TString)];
                     required := [];
                     execute := @Coleslaw.coleslaw_build unit
                                  Worlds.missing_binary |}
                  (ArgObject ∅) (initial tt)
                  (or_intror (or_introl eq_refl))
                  (fun Hn => match Hn with
                             | or_introl Heq => ltac:(discriminate Heq)
                             | or_intror (or_introl Heq) => ltac:(discriminate Heq)
                             | or_intror (or_intror (or_introl Heq)) =>
                                 ltac:(discriminate Heq)
                             | or_intror (or_intror (or_intror Hf)) =>
                                 match Hf with end
                             end))
           ∅ Worlds.not_found eq_refl).
Defined.
